(** * Aedar backend: the roadmap generation pipeline of [chat.service.ts]

    A shallow embedding of [ChatService.generateRoadmap] and of
    [GoalPreprocessorService.preprocess], together with the part of the
    JavaScript run time they lean on ([JSON.parse], property reads, truthiness,
    [String.prototype.trim], [String.prototype.match] with the bracket
    pattern), and the properties of the pipeline stated in the specification. *)

From Stdlib Require Import List NArith ZArith QArith String Ascii Bool Lia.
Import ListNotations.

Set Implicit Arguments.
Local Set Warnings "-register-all".

Local Open Scope N_scope.

(** ** JavaScript strings

    A JavaScript string is a sequence of UTF-16 code units; a code unit is an
    [N] below 65536.  [js] injects an ASCII literal. *)

Definition jsstring := list N.

Fixpoint js (s : string) : jsstring :=
  match s with
  | EmptyString => []
  | String a r => N_of_ascii a :: js r
  end.

(** The double quote, written by its code so that no literal has to hold it. *)
Definition dq : jsstring := [34].
Definition nl : jsstring := [10].

Definition jsstring_eqb (a b : jsstring) : bool :=
  if list_eq_dec N.eq_dec a b then true else false.

(** ** JavaScript values, as far as [JSON.parse] can build them

    A number keeps the text of its literal: its rounding to a double is the
    engine's business.  An object keeps its members in source order; a
    repeated key is read at its last occurrence, as [JSON.parse] lets the last
    one win. *)

Inductive jsval : Type :=
| JUndefined
| JNull
| JBool (b : bool)
| JNum (lexeme : jsstring)
| JStr (s : jsstring)
| JArr (items : list jsval)
| JObj (members : list (jsstring * jsval)).

(** ** [JSON.parse]: the lexer

    One pass over the code units with a five-state machine.  Numbers and the
    three literals are read as maximal words over letters, digits, sign and
    dot and classified when the word ends: no character of that class may
    follow a complete JSON number or literal, so this accepts exactly the JSON
    tokens. *)

Inductive token : Type :=
| TLBracket | TRBracket | TLBrace | TRBrace | TComma | TColon
| TString (s : jsstring)
| TNumber (lexeme : jsstring)
| TTrue | TFalse | TNull.

Inductive lex_state : Type :=
| LIdle
| LWord (rev_acc : jsstring)
| LString (rev_acc : jsstring)
| LEscape (rev_acc : jsstring)
| LHex (rev_acc : jsstring) (remaining : nat) (value : N).

(** JSON white space: tab, line feed, carriage return, space. *)
Definition is_json_ws (c : N) : bool :=
  (c =? 9) || (c =? 10) || (c =? 13) || (c =? 32).

Definition is_digit (c : N) : bool := (48 <=? c) && (c <=? 57).

Definition is_letter (c : N) : bool :=
  ((65 <=? c) && (c <=? 90)) || ((97 <=? c) && (c <=? 122)).

Definition is_word_char (c : N) : bool :=
  is_digit c || is_letter c || (c =? 43) || (c =? 45) || (c =? 46).

Fixpoint span_digits (s : jsstring) : jsstring * jsstring :=
  match s with
  | c :: r =>
      if is_digit c then let (d, rest) := span_digits r in (c :: d, rest)
      else ([], s)
  | [] => ([], [])
  end.

Definition nonempty (s : jsstring) : bool :=
  match s with [] => false | _ :: _ => true end.

(** exp: [eE] [+-]? digit+ , or nothing *)
Definition number_exp (s : jsstring) : bool :=
  match s with
  | [] => true
  | c :: r =>
      ((c =? 101) || (c =? 69)) &&
      let r' := match r with
                | sg :: r2 => if (sg =? 43) || (sg =? 45) then r2 else r
                | [] => r
                end in
      let (d, rest) := span_digits r' in
      nonempty d && negb (nonempty rest)
  end.

(** frac: . digit+ , or nothing *)
Definition number_frac (s : jsstring) : bool :=
  match s with
  | c :: r =>
      if c =? 46 then
        let (d, rest) := span_digits r in nonempty d && number_exp rest
      else number_exp s
  | [] => true
  end.

(** int: 0 | [1-9] digit* *)
Definition number_int (s : jsstring) : bool :=
  match s with
  | c :: r =>
      if c =? 48 then number_frac r
      else if is_digit c then let (_, rest) := span_digits r in number_frac rest
      else false
  | [] => false
  end.

Definition valid_number (s : jsstring) : bool :=
  match s with
  | c :: r => if c =? 45 then number_int r else number_int s
  | [] => false
  end.

Definition word_token (w : jsstring) : option token :=
  if jsstring_eqb w (js "true") then Some TTrue
  else if jsstring_eqb w (js "false") then Some TFalse
  else if jsstring_eqb w (js "null") then Some TNull
  else if valid_number w then Some (TNumber w)
  else None.

Definition punctuator (c : N) : option token :=
  if c =? 91 then Some TLBracket
  else if c =? 93 then Some TRBracket
  else if c =? 123 then Some TLBrace
  else if c =? 125 then Some TRBrace
  else if c =? 44 then Some TComma
  else if c =? 58 then Some TColon
  else None.

(** The single-character escapes: quote, backslash, slash, b, f, n, r, t. *)
Definition escape_char (c : N) : option N :=
  if c =? 34 then Some 34
  else if c =? 92 then Some 92
  else if c =? 47 then Some 47
  else if c =? 98 then Some 8
  else if c =? 102 then Some 12
  else if c =? 110 then Some 10
  else if c =? 114 then Some 13
  else if c =? 116 then Some 9
  else None.

Definition hex_digit (c : N) : option N :=
  if is_digit c then Some (c - 48)
  else if (97 <=? c) && (c <=? 102) then Some (c - 87)
  else if (65 <=? c) && (c <=? 70) then Some (c - 55)
  else None.

Definition lex_idle (c : N) : option (list token * lex_state) :=
  if is_json_ws c then Some ([], LIdle)
  else if c =? 34 then Some ([], LString [])
  else match punctuator c with
       | Some t => Some ([t], LIdle)
       | None => if is_word_char c then Some ([], LWord [c]) else None
       end.

Definition lex_step (st : lex_state) (c : N) : option (list token * lex_state) :=
  match st with
  | LIdle => lex_idle c
  | LWord acc =>
      if is_word_char c then Some ([], LWord (c :: acc))
      else match word_token (rev acc), lex_idle c with
           | Some t, Some (ts, st') => Some (t :: ts, st')
           | _, _ => None
           end
  | LString acc =>
      if c =? 34 then Some ([TString (rev acc)], LIdle)
      else if c =? 92 then Some ([], LEscape acc)
      else if c <? 32 then None
      else Some ([], LString (c :: acc))
  | LEscape acc =>
      if c =? 117 then Some ([], LHex acc 3 0)
      else match escape_char c with
           | Some u => Some ([], LString (u :: acc))
           | None => None
           end
  | LHex acc n v =>
      match hex_digit c with
      | None => None
      | Some d =>
          match n with
          | O => Some ([], LString ((16 * v + d) :: acc))
          | S n' => Some ([], LHex acc n' (16 * v + d))
          end
      end
  end.

(** At the end of the text an open word must be a token and an open string
    is an error.  The tokens read so far are kept in reverse. *)
Definition lex_end (st : lex_state) (acc : list token) : option (list token) :=
  match st with
  | LIdle => Some (rev acc)
  | LWord w => option_map (fun t => rev (t :: acc)) (word_token (rev w))
  | _ => None
  end.

Fixpoint lex (st : lex_state) (acc : list token) (s : jsstring)
  : option (list token) :=
  match s with
  | [] => lex_end st acc
  | c :: r =>
      match lex_step st c with
      | None => None
      | Some (ts, st') => lex st' (rev_append ts acc) r
      end
  end.

(** ** [JSON.parse]: the parser

    A pushdown machine over the tokens.  The stack holds the containers that
    are still open, each with what it has collected so far (in reverse). *)

Inductive frame : Type :=
| FArr (rev_items : list jsval)
| FObj (rev_members : list (jsstring * jsval)) (key : jsstring).

Inductive parse_state : Type :=
| PValue (stack : list frame)
| PArrOpen (stack : list frame)
| PArrNext (rev_items : list jsval) (stack : list frame)
| PObjOpen (stack : list frame)
| PObjKey (rev_members : list (jsstring * jsval)) (stack : list frame)
| PObjColon (rev_members : list (jsstring * jsval)) (key : jsstring)
            (stack : list frame)
| PObjNext (rev_members : list (jsstring * jsval)) (stack : list frame)
| PDone (v : jsval).

(** A value is complete: hand it to the innermost open container. *)
Definition complete (v : jsval) (stack : list frame) : parse_state :=
  match stack with
  | [] => PDone v
  | FArr items :: stack' => PArrNext (v :: items) stack'
  | FObj members key :: stack' => PObjNext ((key, v) :: members) stack'
  end.

Definition parse_value (t : token) (stack : list frame) : option parse_state :=
  match t with
  | TLBracket => Some (PArrOpen stack)
  | TLBrace => Some (PObjOpen stack)
  | TString s => Some (complete (JStr s) stack)
  | TNumber l => Some (complete (JNum l) stack)
  | TTrue => Some (complete (JBool true) stack)
  | TFalse => Some (complete (JBool false) stack)
  | TNull => Some (complete JNull stack)
  | _ => None
  end.

Definition parse_step (st : parse_state) (t : token) : option parse_state :=
  match st with
  | PValue stack => parse_value t stack
  | PArrOpen stack =>
      match t with
      | TRBracket => Some (complete (JArr []) stack)
      | _ => parse_value t (FArr [] :: stack)
      end
  | PArrNext items stack =>
      match t with
      | TComma => Some (PValue (FArr items :: stack))
      | TRBracket => Some (complete (JArr (rev items)) stack)
      | _ => None
      end
  | PObjOpen stack =>
      match t with
      | TRBrace => Some (complete (JObj []) stack)
      | TString k => Some (PObjColon [] k stack)
      | _ => None
      end
  | PObjKey members stack =>
      match t with
      | TString k => Some (PObjColon members k stack)
      | _ => None
      end
  | PObjColon members k stack =>
      match t with
      | TColon => Some (PValue (FObj members k :: stack))
      | _ => None
      end
  | PObjNext members stack =>
      match t with
      | TComma => Some (PObjKey members stack)
      | TRBrace => Some (complete (JObj (rev members)) stack)
      | _ => None
      end
  | PDone _ => None
  end.

Fixpoint parse_tokens (st : parse_state) (ts : list token) : option jsval :=
  match ts with
  | [] => match st with PDone v => Some v | _ => None end
  | t :: r =>
      match parse_step st t with
      | Some st' => parse_tokens st' r
      | None => None
      end
  end.

(** [JSON.parse text], [None] standing for the [SyntaxError] it throws. *)
Definition JSON_parse (text : jsstring) : option jsval :=
  match lex LIdle [] text with
  | Some ts => parse_tokens (PValue []) ts
  | None => None
  end.

(** ** The rest of the run time *)

(** What calling [response.text] does, for a [response] that an error
    carries: the property is missing, or the call returns a value, or it
    throws.  The SDK's response error is thrown by [response.text()] and
    carries that same response, so that calling [err.response.text()] throws
    an error like [err] again: [TextThrowsAgain].  [TextThrows] is any other
    throw, the [TypeError] for a [text] that is no function included. *)
Inductive text_method (E : Type) : Type :=
| NoText
| TextReturns (v : jsval)
| TextThrowsAgain
| TextThrows (e : E).
Arguments NoText {E}.
Arguments TextReturns {E} v.
Arguments TextThrowsAgain {E}.
Arguments TextThrows {E} e.

(** Thrown values.  Everything this code throws or catches is an [Error]
    object (the SDK's failures included); the code reads its [name] and
    [message], and, through [err?.response?.text?.()], its [response],
    which most errors do not have. *)
Inductive js_error : Type := Build_js_error {
  err_name : jsstring;
  err_message : jsstring;
  err_response : option (text_method js_error)
}.

Definition Error_ (m : jsstring) : js_error :=
  {| err_name := js "Error"; err_message := m; err_response := None |}.

Inductive outcome (A : Type) : Type :=
| Returns (a : A)
| Throws (e : js_error).
Arguments Returns {A} a.
Arguments Throws {A} e.

(** [err?.response?.text?.()]: [undefined] when [err.response] or
    [err.response.text] is missing, else the outcome of the call. *)
Definition raw_output (err : js_error) : outcome jsval :=
  match err_response err with
  | None => Returns JUndefined
  | Some NoText => Returns JUndefined
  | Some (TextReturns v) => Returns v
  | Some TextThrowsAgain => Throws err
  | Some (TextThrows e) => Throws e
  end.

(** What the engine decides and the program does not: the wording of the
    errors it raises, and whether a number literal denotes zero. *)
Record engine : Type := {
  syntax_error_message : jsstring -> jsstring;
  null_read_message : jsval -> jsstring -> jsstring;
  number_is_zero : jsstring -> bool
}.

Definition SyntaxError_ (E : engine) (text : jsstring) : js_error :=
  {| err_name := js "SyntaxError";
     err_message := syntax_error_message E text;
     err_response := None |}.

Definition TypeError_ (m : jsstring) : js_error :=
  {| err_name := js "TypeError"; err_message := m; err_response := None |}.

Definition ReferenceError_ (ident : jsstring) : js_error :=
  {| err_name := js "ReferenceError";
     err_message := ident ++ js " is not defined";
     err_response := None |}.

Definition JSON_parse_or_throw (E : engine) (text : jsstring) : outcome jsval :=
  match JSON_parse text with
  | Some v => Returns v
  | None => Throws (SyntaxError_ E text)
  end.

Fixpoint lookup_last (k : jsstring) (ms : list (jsstring * jsval)) : option jsval :=
  match ms with
  | [] => None
  | (k', v) :: r =>
      match lookup_last k r with
      | Some v' => Some v'
      | None => if jsstring_eqb k' k then Some v else None
      end
  end.

(** [v.key], for a key that no built-in prototype defines (all the keys this
    program reads are such). *)
Definition get (E : engine) (v : jsval) (key : jsstring) : outcome jsval :=
  match v with
  | JUndefined | JNull => Throws (TypeError_ (null_read_message E v key))
  | JObj ms =>
      Returns (match lookup_last key ms with Some x => x | None => JUndefined end)
  | _ => Returns JUndefined
  end.

(** ToBoolean *)
Definition truthy (E : engine) (v : jsval) : bool :=
  match v with
  | JUndefined | JNull => false
  | JBool b => b
  | JNum l => negb (number_is_zero E l)
  | JStr s => nonempty s
  | JArr _ | JObj _ => true
  end.

(** [a || b] *)
Definition js_or (E : engine) (a b : jsval) : jsval :=
  if truthy E a then a else b.

(** [a ?? b] *)
Definition nullish_coalesce (a b : jsval) : jsval :=
  match a with
  | JUndefined | JNull => b
  | _ => a
  end.

(** WhiteSpace and LineTerminator code units, what [trim] removes. *)
Definition is_js_space (c : N) : bool :=
  ((9 <=? c) && (c <=? 13)) || (c =? 32) || (c =? 160) || (c =? 5760)
  || ((8192 <=? c) && (c <=? 8202)) || (c =? 8232) || (c =? 8233)
  || (c =? 8239) || (c =? 8287) || (c =? 12288) || (c =? 65279).

Fixpoint trimStart (s : jsstring) : jsstring :=
  match s with
  | c :: r => if is_js_space c then trimStart r else s
  | [] => []
  end.

Definition trimEnd (s : jsstring) : jsstring := rev (trimStart (rev s)).

Definition trim (s : jsstring) : jsstring := trimEnd (trimStart s).

(** [s.match(/\[[\s\S]*\]/)]: from the first opening bracket to the last
    closing bracket after it. *)
Fixpoint upto_last_rbracket (s : jsstring) : option jsstring :=
  match s with
  | [] => None
  | c :: r =>
      match upto_last_rbracket r with
      | Some p => Some (c :: p)
      | None => if c =? 93 then Some [c] else None
      end
  end.

Fixpoint match_bracketed (s : jsstring) : option jsstring :=
  match s with
  | [] => None
  | c :: r =>
      if c =? 91 then option_map (cons c) (upto_last_rbracket r)
      else match_bracketed r
  end.

(** ** Response schemas *)

Inductive json_type : Type := TyObject | TyArray | TyString | TyBoolean | TyNull.

Inductive schema : Type :=
| Schema (types : list json_type)
         (properties : list (jsstring * schema))
         (required : list jsstring)
         (items : option schema)
         (enum : option (list jsval)).

Definition sch_object (props : list (jsstring * schema)) (req : list jsstring) :=
  Schema [TyObject] props req None None.
Definition sch_array (items : schema) := Schema [TyArray] [] [] (Some items) None.
Definition sch_string := Schema [TyString] [] [] None None.
Definition sch_boolean := Schema [TyBoolean] [] [] None None.

Definition has_type (ty : json_type) (v : jsval) : bool :=
  match ty, v with
  | TyObject, JObj _ | TyArray, JArr _ | TyString, JStr _
  | TyBoolean, JBool _ | TyNull, JNull => true
  | _, _ => false
  end.

Definition prim_eqb (a b : jsval) : bool :=
  match a, b with
  | JNull, JNull => true
  | JStr x, JStr y => jsstring_eqb x y
  | _, _ => false
  end.

Definition has_key (ms : list (jsstring * jsval)) (k : jsstring) : bool :=
  match lookup_last k ms with Some _ => true | None => false end.

(** Whether a decoded value has the shape a schema declares. *)
Fixpoint conforms (s : schema) (v : jsval) {struct s} : bool :=
  match s with
  | Schema tys props req items enum =>
      existsb (fun ty => has_type ty v) tys
      && match enum with
         | Some vs => existsb (prim_eqb v) vs
         | None => true
         end
      && match v with
         | JObj ms =>
             forallb (has_key ms) req
             && (fix props_ok (ps : list (jsstring * schema)) : bool :=
                   match ps with
                   | [] => true
                   | (k, sk) :: ps' =>
                       match lookup_last k ms with
                       | Some vk => conforms sk vk
                       | None => true
                       end && props_ok ps'
                   end) props
         | JArr vs =>
             match items with
             | Some si => forallb (conforms si) vs
             | None => true
             end
         | _ => true
         end
  end.

(** ** The completion service and the trace of a run *)

(** A [generationConfig] object: every property is optional, and the two
    places that write one set different properties. *)
Record GenerationConfig : Type := {
  temperature : option Q;
  responseMimeType : option jsstring;
  responseSchema : option schema
}.

(** What [getGenerativeModel] is given. *)
Record GenerativeModel : Type := {
  model : jsstring;
  generationConfig : GenerationConfig
}.

(** What [generateContent] is given: [contents], one user part holding the
    prompt, and the call's own [generationConfig].  How the SDK combines
    the call's configuration with the handle's is its business and not in
    this code; a request is recorded with both, as written. *)
Record request : Type := {
  contents : jsstring;
  callGenerationConfig : GenerationConfig
}.

(** A call either fails ([generateContent] rejects, or [response.text()]
    throws), or hands back the text, which may be missing. *)
Inductive reply : Type :=
| Fails (e : js_error)
| Responds (text : option jsstring).

Inductive event : Type :=
| Requested (m : GenerativeModel) (r : request)
| ConsoleError (label : jsstring) (arg : jsval).

Definition trace := list event.

(** Computations: they extend the trace and return or throw. *)
Definition M (A : Type) : Type := trace -> outcome A * trace.

Definition ret {A} (a : A) : M A := fun t => (Returns a, t).

Definition throw {A} (e : js_error) : M A := fun t => (Throws e, t).

Definition lift {A} (o : outcome A) : M A := fun t => (o, t).

Definition bind {A B} (m : M A) (k : A -> M B) : M B :=
  fun t =>
    match m t with
    | (Returns a, t') => k a t'
    | (Throws e, t') => (Throws e, t')
    end.

Definition try_catch {A} (m : M A) (handler : js_error -> M A) : M A :=
  fun t =>
    match m t with
    | (Returns a, t') => (Returns a, t')
    | (Throws e, t') => handler e t'
    end.

Definition console_error (label : jsstring) (arg : jsval) : M unit :=
  fun t => (Returns tt, t ++ [ConsoleError label arg]).

Notation "x <- m ;; k" := (bind m (fun x => k))
  (at level 61, m at next level, right associativity).

(** The requests of a trace, in order. *)
Fixpoint requests (t : trace) : list (GenerativeModel * request) :=
  match t with
  | [] => []
  | Requested m r :: t' => (m, r) :: requests t'
  | ConsoleError _ _ :: t' => requests t'
  end.

(** ** Results *)

(** [RoadmapResponse].  [calendarIntentReason] is [None] when the object
    literal does not set the property at all. *)
Record RoadmapResponse : Type := {
  roadmap : jsval;
  shouldTriggerCalendar : jsval;
  calendarIntentReason : option jsval
}.

(** [PreprocessedGoal], as the values the object literal is built from. *)
Record PreprocessedGoal : Type := {
  goal : jsval;
  known : jsval;
  experienceLevel : jsval;
  formatPreference : jsval;
  timeframe : jsval;
  specificFocus : jsval
}.

(** ** Schemas of the two stages *)

Definition q (s : string) : jsstring := dq ++ js s ++ dq.

Definition nullable_string (enum : option (list jsval)) : schema :=
  Schema [TyString; TyNull] [] [] None enum.

Definition goal_schema : schema :=
  sch_object
    [ (js "goal", sch_string);
      (js "known", sch_array sch_string);
      (js "experienceLevel",
        nullable_string
          (Some [JStr (js "beginner"); JStr (js "intermediate");
                 JStr (js "advanced"); JNull]));
      (js "formatPreference",
        nullable_string
          (Some [JStr (js "video"); JStr (js "article"); JStr (js "project");
                 JStr (js "mixed"); JNull]));
      (js "timeframe", nullable_string None);
      (js "specificFocus",
        Schema [TyArray; TyNull] [] [] (Some sch_string) None) ]
    [js "goal"; js "known"].

Definition resource_schema : schema :=
  sch_object
    [ (js "type", sch_string); (js "title", sch_string);
      (js "link", sch_string); (js "description", sch_string) ]
    [js "type"; js "title"; js "link"; js "description"].

Definition node_schema : schema :=
  sch_object
    [ (js "id", sch_string); (js "title", sch_string);
      (js "description", sch_string);
      (js "resources", sch_array resource_schema) ]
    [js "id"; js "title"; js "description"; js "resources"].

Definition stage_schema : schema :=
  sch_object
    [ (js "id", sch_string); (js "title", sch_string);
      (js "description", sch_string);
      (js "nodes", sch_array node_schema) ]
    [js "id"; js "title"; js "description"; js "nodes"].

Definition roadmap_schema : schema :=
  sch_object
    [ (js "roadmap", sch_array stage_schema);
      (js "triggerCalendar", sch_boolean);
      (js "calendarIntentReason", nullable_string None) ]
    [js "roadmap"; js "triggerCalendar"].

(** ** Prompts *)

Fixpoint unlines (ls : list jsstring) : jsstring :=
  match ls with
  | [] => []
  | [l] => l
  | l :: r => l ++ nl ++ unlines r
  end.

Definition em_dash : jsstring := [8212].
Definition en_dash : jsstring := [8211].

(** The three literal chunks of the roadmap template, around
    [userMessage] and [prompt]. *)
Definition roadmap_template_head : jsstring :=
  unlines
    [ [];
      js "You are an expert roadmap builder and learning specialist.";
      [];
      js "Your task is to generate a structured learning roadmap based on the goal below.";
      [];
      js "Additionally, detect if the user wants calendar integration " ++ em_dash
        ++ js " only set triggerCalendar to true if they explicitly mention scheduling, reminders, deadlines, calendar events, check-ins, etc.";
      [];
      js "User's original message: " ++ dq ].

Definition roadmap_template_middle : jsstring :=
  unlines [ dq; []; js "Roadmap goal: " ].

Definition roadmap_template_tail : jsstring :=
  unlines
    [ [];
      [];
      js "Examples where triggerCalendar = true:";
      js "- " ++ q "Make a 6-week plan with weekly reminders";
      js "- " ++ q "Add this to my calendar with deadlines";
      [];
      js "Examples where triggerCalendar = false:";
      js "- " ++ q "Give me a roadmap to learn TypeScript";
      js "- " ++ q "How to master backend development";
      [];
      js "ROADMAP GUIDELINES:";
      js "- Each stage: meaningful title, 2" ++ en_dash
        ++ js "3 sentence description explaining why it's important";
      js "- Each node: detailed 2" ++ en_dash
        ++ js "3 sentence educational description";
      js "- Exactly 3 high-quality resources per node (video, article, project mix)";
      js "- Use reputable sources (MDN, official docs, FreeCodeCamp, Traversy Media, etc.)";
      js "- Realistic and valid-looking links";
      [];
      js "Output must be valid JSON matching the schema.";
      [] ].

Definition fullPrompt (userMessage prompt : jsstring) : jsstring :=
  trim (roadmap_template_head ++ userMessage ++ roadmap_template_middle
        ++ prompt ++ roadmap_template_tail).

(** The two literal chunks of the goal-extraction template, around
    [message]. *)
Definition goal_template_head : jsstring :=
  unlines
    [ [];
      js "You are an expert assistant that extracts detailed learning goals from user input.";
      [];
      js "From the user message below, extract and infer the following in valid JSON:";
      [];
      js "{";
      js "  " ++ q "goal" ++ js ": "
        ++ q "Clear, specific, actionable statement of what the user wants to learn or achieve"
        ++ js ",";
      js "  " ++ q "known" ++ js ": ["
        ++ q "List of skills, tools, languages, or concepts they already know or have experience with"
        ++ js "],";
      js "  " ++ q "experienceLevel" ++ js ": " ++ q "beginner" ++ js " | "
        ++ q "intermediate" ++ js " | " ++ q "advanced"
        ++ js " (infer from clues; null if unclear),";
      js "  " ++ q "formatPreference" ++ js ": " ++ q "video" ++ js " | "
        ++ q "article" ++ js " | " ++ q "project" ++ js " | " ++ q "mixed"
        ++ js " (default to " ++ q "mixed" ++ js " unless explicitly stated),";
      js "  " ++ q "timeframe" ++ js ": "
        ++ q "Any mentioned duration (e.g., 'in 3 months', 'over 6 weeks', 'quick overview') or null"
        ++ js ",";
      js "  " ++ q "specificFocus" ++ js ": ["
        ++ q "Specific topics, areas, tools, or constraints they want to emphasize or avoid"
        ++ js "] or null";
      js "}";
      [];
      js "GUIDELINES:";
      js "- Make the goal concise but specific and actionable";
      js "- Infer experience level from mentions of prior knowledge, tools used, or complexity of request";
      js "- Only set formatPreference if they clearly prefer one style";
      js "- Include timeframe only if mentioned or strongly implied";
      js "- Capture any explicit focuses, constraints, or " ++ q "avoid X"
        ++ js " requests in specificFocus";
      js "- If uncertain, make intelligent defaults (e.g., mixed format, null timeframe)";
      [];
      js "User message:";
      dq ++ dq ++ dq ].

Definition goal_template_tail : jsstring :=
  unlines
    [ dq ++ dq ++ dq;
      [];
      js "Respond with valid JSON only, matching the schema exactly.";
      [] ].

Definition goal_prompt (message : jsstring) : jsstring :=
  trim (goal_template_head ++ message ++ goal_template_tail).

(** ** The two services *)

(** What an identifier can be bound to where the [catch] handler of
    [generateRoadmap] runs. *)
Inductive binding : Type :=
| BVal (v : jsval)
| BSchema (s : schema)
| BError (e : js_error).

Definition scope := list (jsstring * binding).

Fixpoint resolve (ident : jsstring) (sc : scope) : option binding :=
  match sc with
  | [] => None
  | (x, b) :: r => if jsstring_eqb x ident then Some b else resolve ident r
  end.

Section Pipeline.

(** The engine the code runs on. *)
Variable E : engine.

(** The completion service: its answer to a request may depend on
    everything that happened before. *)
Variable gemini : trace -> GenerativeModel -> request -> reply.

(** [buildRoadmapPrompt] of [utils/index], which is not part of the file:
    any total function of [goal], [known] and [experienceLevel] to a
    string. *)
Variable buildRoadmapPrompt : jsval -> jsval -> jsval -> jsstring.

(** [await model.generateContent(...)] followed by [response.text()]. *)
Definition generateContent (m : GenerativeModel) (r : request)
  : M (option jsstring) :=
  fun t =>
    match gemini t m r with
    | Fails e => (Throws e, t ++ [Requested m r])
    | Responds text => (Returns text, t ++ [Requested m r])
    end.

(** *** [GoalPreprocessorService] *)

Definition goalModel : GenerativeModel :=
  {| model := js "gemini-1.5-flash";
     generationConfig :=
       {| temperature := Some (2 # 10);
          responseMimeType := Some (js "application/json");
          responseSchema := None |} |}.

Definition goal_request (message : jsstring) : request :=
  {| contents := goal_prompt message;
     callGenerationConfig :=
       {| temperature := None;
          responseMimeType := None;
          responseSchema := Some goal_schema |} |}.

(** The body of the [try] block of [preprocess]. *)
Definition preprocess_try (message : jsstring) : M PreprocessedGoal :=
  text <- generateContent goalModel (goal_request message) ;;
  match text with
  | None => throw (Error_ (js "Empty response from Gemini"))
  | Some text =>
      if negb (nonempty text)
      then throw (Error_ (js "Empty response from Gemini"))
      else
        parsed <- lift (JSON_parse_or_throw E text) ;;
        p_goal <- lift (get E parsed (js "goal")) ;;
        p_known <- lift (get E parsed (js "known")) ;;
        p_level <- lift (get E parsed (js "experienceLevel")) ;;
        p_format <- lift (get E parsed (js "formatPreference")) ;;
        p_time <- lift (get E parsed (js "timeframe")) ;;
        p_focus <- lift (get E parsed (js "specificFocus")) ;;
        ret {| goal := p_goal;
               known := js_or E p_known (JArr []);
               experienceLevel := nullish_coalesce p_level JUndefined;
               formatPreference := nullish_coalesce p_format JUndefined;
               timeframe := nullish_coalesce p_time JUndefined;
               specificFocus := nullish_coalesce p_focus JUndefined |}
  end.

Definition preprocess_failure (err : js_error) : js_error :=
  Error_ (js "Failed to preprocess goal with Gemini: " ++ err_message err).

(** The [catch] handler: two log lines, then the wrapped error.  The
    argument of the second line is evaluated before the line is written,
    and what it throws leaves the handler as it is. *)
Definition preprocess_handler (err : js_error) : M PreprocessedGoal :=
  _ <- console_error (js "Gemini preprocessing failed:")
         (JStr (err_message err)) ;;
  raw <- lift (raw_output err) ;;
  _ <- console_error (js "Raw output (if any):") raw ;;
  throw (preprocess_failure err).

Definition preprocess (message : jsstring) : M PreprocessedGoal :=
  try_catch (preprocess_try message) preprocess_handler.

(** *** [ChatService] *)

Definition chatModel : GenerativeModel :=
  {| model := js "gemini-1.5-flash";
     generationConfig :=
       {| temperature := Some (7 # 10);
          responseMimeType := Some (js "application/json");
          responseSchema := None |} |}.

Definition roadmap_request (full : jsstring) : request :=
  {| contents := full;
     callGenerationConfig :=
       {| temperature := None;
          responseMimeType := None;
          responseSchema := Some roadmap_schema |} |}.

(** The body of the [try] block of [generateRoadmap]. *)
Definition roadmap_try (full : jsstring) : M RoadmapResponse :=
  text <- generateContent chatModel (roadmap_request full) ;;
  match text with
  | None => throw (Error_ (js "Empty response from Gemini"))
  | Some text =>
      if negb (nonempty text)
      then throw (Error_ (js "Empty response from Gemini"))
      else
        parsed <- lift (JSON_parse_or_throw E text) ;;
        p_roadmap <- lift (get E parsed (js "roadmap")) ;;
        p_trigger <- lift (get E parsed (js "triggerCalendar")) ;;
        p_reason <- lift (get E parsed (js "calendarIntentReason")) ;;
        ret {| roadmap := p_roadmap;
               shouldTriggerCalendar := p_trigger;
               calendarIntentReason :=
                 Some (nullish_coalesce p_reason JUndefined) |}
  end.

(** The identifiers in scope in the [catch] handler: the parameter, the
    [const]s declared in the function body before the [try], and [err].
    [result], [response], [text] and [parsed] are [const]s of the [try]
    block and end with it; the global object has no [text]. *)
Definition handler_scope (userMessage : jsstring) (pg : PreprocessedGoal)
    (prompt full : jsstring) (err : js_error) : scope :=
  [ (js "err", BError err);
    (js "fullPrompt", BVal (JStr full));
    (js "responseSchema", BSchema roadmap_schema);
    (js "prompt", BVal (JStr prompt));
    (js "experienceLevel", BVal (experienceLevel pg));
    (js "known", BVal (known pg));
    (js "goal", BVal (goal pg));
    (js "userMessage", BVal (JStr userMessage)) ].

(** The inner [try] block of the handler: [Returns (Some r)] when it
    reaches its [return], [Returns None] when it falls through. *)
Definition fallback (sc : scope) : outcome (option RoadmapResponse) :=
  match resolve (js "text") sc with
  | None => Throws (ReferenceError_ (js "text"))
  | Some (BVal (JStr text)) =>
      match match_bracketed text with
      | Some m =>
          match JSON_parse_or_throw E m with
          | Returns r =>
              Returns (Some {| roadmap := r;
                               shouldTriggerCalendar := JBool false;
                               calendarIntentReason := None |})
          | Throws e => Throws e
          end
      | None => Returns None
      end
  | Some (BVal JUndefined) =>
      Throws (TypeError_ (null_read_message E JUndefined (js "match")))
  | Some (BVal JNull) =>
      Throws (TypeError_ (null_read_message E JNull (js "match")))
  | Some _ => Throws (TypeError_ (js "text.match is not a function"))
  end.

Definition roadmap_failure (err : js_error) : js_error :=
  Error_ (js "Failed to generate or parse roadmap: " ++ err_message err).

(** The [catch] handler: two log lines, the fallback (whose own failure
    is ignored), then the wrapped error.  The argument of the second line
    is evaluated before the line is written and outside the inner [try]:
    what it throws leaves the handler as it is. *)
Definition roadmap_handler (sc : js_error -> scope) (err : js_error)
  : M RoadmapResponse :=
  _ <- console_error (js "Gemini generation failed:")
         (JStr (err_message err)) ;;
  raw <- lift (raw_output err) ;;
  _ <- console_error (js "Raw output (if any):") raw ;;
  match fallback (sc err) with
  | Returns (Some r) => ret r
  | Returns None | Throws _ => throw (roadmap_failure err)
  end.

(** Everything after the first line of [generateRoadmap]. *)
Definition roadmap_stage (userMessage : jsstring) (pg : PreprocessedGoal)
  : M RoadmapResponse :=
  let prompt := buildRoadmapPrompt (goal pg) (known pg) (experienceLevel pg) in
  let full := fullPrompt userMessage prompt in
  try_catch (roadmap_try full)
    (roadmap_handler (handler_scope userMessage pg prompt full)).

Definition generateRoadmap (userMessage : jsstring) : M RoadmapResponse :=
  pg <- preprocess userMessage ;;
  roadmap_stage userMessage pg.

End Pipeline.

(** ** The wire form of a goal descriptor

    What the schema-constrained service sends for a goal: JSON text.  [encode]
    writes a JSON value the compact way; [is_json] says which values have a
    JSON text at all. *)

Definition hex_char (d : N) : N := if d <? 10 then 48 + d else 87 + d.

Definition escape_unit (c : N) : jsstring :=
  if c =? 34 then [92; 34]
  else if c =? 92 then [92; 92]
  else if c =? 8 then [92; 98]
  else if c =? 9 then [92; 116]
  else if c =? 10 then [92; 110]
  else if c =? 12 then [92; 102]
  else if c =? 13 then [92; 114]
  else if c <? 32 then [92; 117; 48; 48; hex_char (c / 16); hex_char (c mod 16)]
  else [c].

Definition encode_string (s : jsstring) : jsstring :=
  dq ++ flat_map escape_unit s ++ dq.

Fixpoint encode (v : jsval) : jsstring :=
  match v with
  | JUndefined => js "undefined"
  | JNull => js "null"
  | JBool true => js "true"
  | JBool false => js "false"
  | JNum l => l
  | JStr s => encode_string s
  | JArr vs =>
      js "["
      ++ match vs with
         | [] => []
         | x :: r => encode x ++ flat_map (fun y => js "," ++ encode y) r
         end
      ++ js "]"
  | JObj ms =>
      js "{"
      ++ match ms with
         | [] => []
         | (k, x) :: r =>
             (encode_string k ++ js ":" ++ encode x)
             ++ flat_map (fun m => match m with
                                   | (k', y) =>
                                       js "," ++ encode_string k' ++ js ":" ++ encode y
                                   end) r
         end
      ++ js "}"
  end.

Fixpoint is_json (v : jsval) : bool :=
  match v with
  | JUndefined => false
  | JNull | JBool _ | JStr _ => true
  | JNum l => valid_number l
  | JArr vs => forallb is_json vs
  | JObj ms => forallb (fun m => match m with (_, x) => is_json x end) ms
  end.

(** What may follow a number or a literal: the end, or a character that
    cannot continue a word. *)
Definition no_word_start (rest : jsstring) : Prop :=
  match rest with
  | [] => True
  | c :: _ => is_word_char c = false
  end.

(** The tokens of the text of a value. *)
Fixpoint tokens (v : jsval) : list token :=
  match v with
  | JUndefined => []
  | JNull => [TNull]
  | JBool true => [TTrue]
  | JBool false => [TFalse]
  | JNum l => [TNumber l]
  | JStr s => [TString s]
  | JArr vs =>
      TLBracket
      :: match vs with
         | [] => []
         | x :: r => tokens x ++ flat_map (fun y => TComma :: tokens y) r
         end
      ++ [TRBracket]
  | JObj ms =>
      TLBrace
      :: match ms with
         | [] => []
         | (k, x) :: r =>
             (TString k :: TColon :: tokens x)
             ++ flat_map (fun m => match m with
                                   | (k', y) =>
                                       TComma :: TString k' :: TColon :: tokens y
                                   end) r
         end
      ++ [TRBrace]
  end.

(** A text that the lexer, wherever it is idle, turns into the given
    tokens: whatever follows, or provided that no word character follows. *)
Definition reads_strong (text : jsstring) (toks : list token) : Prop :=
  forall acc rest,
    lex LIdle acc (text ++ rest) = lex LIdle (rev toks ++ acc) rest.

Definition reads (text : jsstring) (toks : list token) : Prop :=
  forall acc rest,
    no_word_start rest ->
    lex LIdle acc (text ++ rest) = lex LIdle (rev toks ++ acc) rest.

(** Tokens that the parser, wherever it expects a value, turns into the
    given value. *)
Definition parses (toks : list token) (v : jsval) : Prop :=
  forall stack ts,
    parse_tokens (PValue stack) (toks ++ ts) = parse_tokens (complete v stack) ts
    /\ parse_tokens (PArrOpen stack) (toks ++ ts)
       = parse_tokens (complete v (FArr [] :: stack)) ts.

Inductive ExperienceLevel : Type := beginner | intermediate | advanced.
Inductive FormatPreference : Type := video | article | project | mixed.

(** The goal descriptor, typed as the interface [PreprocessedGoal] types it. *)
Record GoalDescriptor : Type := {
  gd_goal : jsstring;
  gd_known : list jsstring;
  gd_experienceLevel : option ExperienceLevel;
  gd_formatPreference : option FormatPreference;
  gd_timeframe : option jsstring;
  gd_specificFocus : option (list jsstring)
}.

Definition level_name (l : ExperienceLevel) : jsstring :=
  match l with
  | beginner => js "beginner"
  | intermediate => js "intermediate"
  | advanced => js "advanced"
  end.

Definition format_name (f : FormatPreference) : jsstring :=
  match f with
  | video => js "video"
  | article => js "article"
  | project => js "project"
  | mixed => js "mixed"
  end.

Definition strings (l : list jsstring) : jsval := JArr (map JStr l).

Definition optional {A} (f : A -> jsval) (o : option A) : jsval :=
  match o with Some a => f a | None => JUndefined end.

(** The descriptor as the object [preprocess] returns: an optional field
    without a value is [undefined]. *)
Definition descriptor_value (d : GoalDescriptor) : PreprocessedGoal :=
  {| goal := JStr (gd_goal d);
     known := strings (gd_known d);
     experienceLevel := optional (fun l => JStr (level_name l)) (gd_experienceLevel d);
     formatPreference := optional (fun f => JStr (format_name f)) (gd_formatPreference d);
     timeframe := optional JStr (gd_timeframe d);
     specificFocus := optional strings (gd_specificFocus d) |}.

(** How the sender writes a field that has no value: leaves it out, or
    writes [null]. *)
Inductive absent_style : Type := Omit | Null.

Record wire_style : Type := {
  ws_experienceLevel : absent_style;
  ws_formatPreference : absent_style;
  ws_timeframe : absent_style;
  ws_specificFocus : absent_style;
  ws_omit_empty_known : bool
}.

Definition wire_optional {A} (k : jsstring) (st : absent_style) (f : A -> jsval)
    (o : option A) : list (jsstring * jsval) :=
  match o, st with
  | Some a, _ => [(k, f a)]
  | None, Omit => []
  | None, Null => [(k, JNull)]
  end.

Definition wire_known (omit_empty : bool) (l : list jsstring)
  : list (jsstring * jsval) :=
  match l, omit_empty with
  | [], true => []
  | _, _ => [(js "known", strings l)]
  end.

Definition wire_members (st : wire_style) (d : GoalDescriptor)
  : list (jsstring * jsval) :=
  [(js "goal", JStr (gd_goal d))]
  ++ wire_known (ws_omit_empty_known st) (gd_known d)
  ++ wire_optional (js "experienceLevel") (ws_experienceLevel st)
       (fun l => JStr (level_name l)) (gd_experienceLevel d)
  ++ wire_optional (js "formatPreference") (ws_formatPreference st)
       (fun f => JStr (format_name f)) (gd_formatPreference d)
  ++ wire_optional (js "timeframe") (ws_timeframe st) JStr (gd_timeframe d)
  ++ wire_optional (js "specificFocus") (ws_specificFocus st) strings
       (gd_specificFocus d).

Definition wire_value (st : wire_style) (d : GoalDescriptor) : jsval :=
  JObj (wire_members st d).

Definition encode_goal (st : wire_style) (d : GoalDescriptor) : jsstring :=
  encode (wire_value st d).

(** ** Reading a roadmap *)

Definition array_items (v : jsval) : list jsval :=
  match v with JArr vs => vs | _ => [] end.

Definition field (k : jsstring) (v : jsval) : jsval :=
  match v with
  | JObj ms => match lookup_last k ms with Some x => x | None => JUndefined end
  | _ => JUndefined
  end.

(** All the nodes of all the stages of a roadmap. *)
Definition roadmap_nodes (r : jsval) : list jsval :=
  flat_map (fun stage => array_items (field (js "nodes") stage)) (array_items r).

Definition resources_length (node : jsval) : nat :=
  List.length (array_items (field (js "resources") node)).

(** ** Substrings *)

Fixpoint starts_with (p s : jsstring) : bool :=
  match p, s with
  | [], _ => true
  | a :: p', b :: s' => (a =? b) && starts_with p' s'
  | _ :: _, [] => false
  end.

Fixpoint occurs (p s : jsstring) : bool :=
  starts_with p s
  || match s with
     | [] => false
     | _ :: s' => occurs p s'
     end.

(** ** A sample world, for running the model

    An engine after V8 as Node 20 and later ship it, and a completion
    service that answers its n-th request with the n-th reply of a script. *)

(** The offset at which [s] departs from the literal [lit]. *)
Fixpoint literal_mismatch (lit s : jsstring) : nat :=
  match lit, s with
  | a :: lit', b :: s' => if a =? b then S (literal_mismatch lit' s') else 0%nat
  | _, _ => 0%nat
  end.

(** The offset of the code unit that [JSON.parse] reports when the first
    token of the text is at fault: the first one after the white space, or,
    when that starts [true], [false] or [null], the first one to depart
    from the literal. *)
Fixpoint first_token_fault (s : jsstring) : nat :=
  match s with
  | [] => 0%nat
  | c :: r =>
      if is_json_ws c then S (first_token_fault r)
      else if c =? 116 then literal_mismatch (js "true") s
      else if c =? 102 then literal_mismatch (js "false") s
      else if c =? 110 then literal_mismatch (js "null") s
      else 0%nat
  end.

(** V8's wording of an unexpected token at offset [pos]: the token, then the
    text, whole when it has fewer than 21 code units, else the 10 code
    units on either side of the token with an ellipsis where it is cut; at
    the end of the text, the end-of-input message. *)
Definition unexpected_token_message (text : jsstring) (pos : nat) : jsstring :=
  match nth_error text pos with
  | None => js "Unexpected end of JSON input"
  | Some c =>
      js "Unexpected token '" ++ [c] ++ js "', "
      ++ (if (List.length text <? 21)%nat then dq ++ text ++ dq
          else if (pos <? 10)%nat
          then dq ++ firstn (pos + 10) text ++ dq ++ js "..."
          else if (pos <? List.length text - 10)%nat
          then js "..." ++ dq ++ firstn 20 (skipn (pos - 10) text) ++ dq ++ js "..."
          else js "..." ++ dq ++ skipn (pos - 10) text ++ dq)
      ++ js " is not valid JSON"
  end.

(** The digits of a literal as a number. *)
Fixpoint digits_value (acc : Z) (s : jsstring) : Z :=
  match s with
  | [] => acc
  | c :: r => digits_value (10 * acc + (Z.of_N c - 48))%Z r
  end.

(** A number literal as [(m, e)], its magnitude being [m * 10 ^ e]. *)
Definition decimal_parts (l : jsstring) : Z * Z :=
  let l1 := match l with 45 :: r => r | _ => l end in
  let (int, r1) := span_digits l1 in
  let (frac, r2) := match r1 with
                    | 46 :: r => span_digits r
                    | _ => ([], r1)
                    end in
  let e := match r2 with
           | c :: r =>
               if (c =? 101) || (c =? 69)
               then match r with
                    | 45 :: d => (- digits_value 0 (fst (span_digits d)))%Z
                    | 43 :: d => digits_value 0 (fst (span_digits d))
                    | d => digits_value 0 (fst (span_digits d))
                    end
               else 0%Z
           | [] => 0%Z
           end in
  (digits_value 0 (int ++ frac), (e - Z.of_nat (List.length frac))%Z).

(** Whether a number literal denotes zero as a double: its digits are all
    zero, or its magnitude is at most 2 ^ -1075, half the least positive
    double, and so rounds to zero. *)
Definition rounds_to_zero (l : jsstring) : bool :=
  let (m, e) := decimal_parts l in
  if (m =? 0)%Z then true
  else if (e <? 0)%Z then (m * 2 ^ 1075 <=? 10 ^ (- e))%Z
  else false.

(** The wording is V8's for a text that is blank or fails at its first
    token, on a code unit that is no digit, minus sign or quote.  For a text
    that fails further on V8 names the failure and its position; this
    engine still reports the first token. *)
Definition sample_engine : engine :=
  {| syntax_error_message :=
       fun text => unexpected_token_message text (first_token_fault text);
     null_read_message :=
       fun v k =>
         js "Cannot read properties of "
         ++ match v with JNull => js "null" | _ => js "undefined" end
         ++ js " (reading '" ++ k ++ js "')";
     number_is_zero := rounds_to_zero |}.

Definition scripted (replies : list reply) : trace -> GenerativeModel -> request -> reply :=
  fun t _ _ =>
    nth (List.length (requests t)) replies
        (Fails (Error_ (js "fetch failed"))).

Definition sample_buildRoadmapPrompt (g k l : jsval) : jsstring :=
  js "Goal: " ++ match g with JStr s => s | _ => js "undefined" end.

Definition sample_goal_text : jsstring :=
  js "{" ++ q "goal" ++ js ":" ++ q "Learn TypeScript" ++ js ","
  ++ q "known" ++ js ":[" ++ q "JavaScript" ++ js "]}".

(** Prose around a stage list, as the service sometimes writes it. *)
Definition sample_stage_list : jsstring :=
  js "[{" ++ q "id" ++ js ":" ++ q "s1" ++ js "}]".

Definition sample_prose_wrapped : jsstring :=
  js "Here is your plan:" ++ nl ++ sample_stage_list ++ nl ++ js "Enjoy!".

(** Prose where a roadmap was asked for. *)
Definition sample_refusal : jsstring :=
  js "I could not build a roadmap for this request.".

(** A roadmap of one stage with one node that has [n] resources. *)
Definition sample_resource : jsval :=
  JObj [ (js "type", JStr (js "article"));
         (js "title", JStr (js "Handbook"));
         (js "link", JStr (js "https://www.typescriptlang.org/docs/"));
         (js "description", JStr (js "The official handbook")) ].

Definition sample_node (n : nat) : jsval :=
  JObj [ (js "id", JStr (js "n1"));
         (js "title", JStr (js "Types"));
         (js "description", JStr (js "Basic types"));
         (js "resources", JArr (repeat sample_resource n)) ].

Definition roadmap_with_resources (n : nat) : jsval :=
  JObj [ (js "roadmap",
           JArr [ JObj [ (js "id", JStr (js "s1"));
                         (js "title", JStr (js "Foundations"));
                         (js "description", JStr (js "Start here"));
                         (js "nodes", JArr [sample_node n]) ] ]);
         (js "triggerCalendar", JBool false) ].

(** The error the SDK throws from [response.text()] for a blocked
    candidate.  It carries the response, whose [text()] throws it again. *)
Definition blocked_response_error : js_error :=
  {| err_name := js "Error";
     err_message :=
       js "[GoogleGenerativeAI Error]: Candidate was blocked due to SAFETY";
     err_response := Some TextThrowsAgain |}.

Definition sample_descriptor : GoalDescriptor :=
  {| gd_goal := js "Learn TypeScript";
     gd_known := [js "JavaScript"];
     gd_experienceLevel := Some intermediate;
     gd_formatPreference := None;
     gd_timeframe := None;
     gd_specificFocus := Some [js "generics"] |}.

Definition sample_style : wire_style :=
  {| ws_experienceLevel := Omit;
     ws_formatPreference := Null;
     ws_timeframe := Omit;
     ws_specificFocus := Null;
     ws_omit_empty_known := true |}.

(** The three ways a stage's call can fail before a value is decoded: the
    service fails, the text is missing or empty, the text is not JSON.  The
    second component is the error the [try] block throws. *)
Inductive stage_fails (E : engine) : reply -> js_error -> Prop :=
| upstream_failure (e : js_error) : stage_fails E (Fails e) e
| empty_response_absent :
    stage_fails E (Responds None) (Error_ (js "Empty response from Gemini"))
| empty_response_text :
    stage_fails E (Responds (Some [])) (Error_ (js "Empty response from Gemini"))
| unparsable_response (text : jsstring) :
    text <> [] -> JSON_parse text = None ->
    stage_fails E (Responds (Some text)) (SyntaxError_ E text).

(** What a handler logs for the error it caught: its first line, and the
    second when the argument of that line does not throw. *)
Definition logged (label : jsstring) (err : js_error) : trace :=
  ConsoleError label (JStr (err_message err))
  :: match raw_output err with
     | Returns raw => [ConsoleError (js "Raw output (if any):") raw]
     | Throws _ => []
     end.

(** What a handler throws for the error it caught, [wrapped] being the
    error of its last line: that one, unless the argument of the second
    log line throws first. *)
Definition rethrown (wrapped err : js_error) : js_error :=
  match raw_output err with
  | Returns _ => wrapped
  | Throws e => e
  end.

(** What the lines of a trace log after their labels, in order. *)
Fixpoint log_arguments (t : trace) : list jsval :=
  match t with
  | [] => []
  | ConsoleError _ arg :: t' => arg :: log_arguments t'
  | Requested _ _ :: t' => log_arguments t'
  end.

(** The labels of the lines a trace logs, in order. *)
Fixpoint log_labels (t : trace) : list jsstring :=
  match t with
  | [] => []
  | ConsoleError label _ :: t' => label :: log_labels t'
  | Requested _ _ :: t' => log_labels t'
  end.

(** A text made of JSON white space only. *)
Definition blank (text : jsstring) : bool := forallb is_json_ws text.

(** Whether the outermost container still open is an array. *)
Fixpoint bottom_is_array (stack : list frame) : bool :=
  match stack with
  | [] => false
  | f :: r =>
      match r with
      | [] => match f with FArr _ => true | FObj _ _ => false end
      | _ :: _ => bottom_is_array r
      end
  end.

(** The parser is inside a text whose outermost value is an array, or has
    finished one. *)
Definition in_outer_array (st : parse_state) : Prop :=
  match st with
  | PValue stack | PObjOpen stack | PObjKey _ stack
  | PObjColon _ _ stack | PObjNext _ stack => bottom_is_array stack = true
  | PArrOpen stack | PArrNext _ stack =>
      stack = [] \/ bottom_is_array stack = true
  | PDone v => exists items, v = JArr items
  end.

(** * Properties *)

Lemma jsstring_eqb_eq (a b : jsstring) : jsstring_eqb a b = true <-> a = b.
Proof.
  unfold jsstring_eqb. destruct (list_eq_dec N.eq_dec a b); split; congruence.
Qed.

Lemma requests_app (t u : trace) : requests (t ++ u) = requests t ++ requests u.
Proof.
  induction t as [|[m r|l a] t IH]; simpl; [reflexivity| |assumption].
  now rewrite IH.
Qed.

Lemma requests_logged (label : jsstring) (err : js_error) :
  requests (logged label err) = [].
Proof. unfold logged. now destruct (raw_output err). Qed.

(** ** How the two stages run *)

Section Runs.

Variable E : engine.
Variable gemini : trace -> GenerativeModel -> request -> reply.
Variable buildRoadmapPrompt : jsval -> jsval -> jsval -> jsstring.

Lemma preprocess_try_trace (message : jsstring) (t : trace) :
  snd (preprocess_try E gemini message t)
  = t ++ [Requested goalModel (goal_request message)].
Proof.
  unfold preprocess_try, bind, generateContent, throw, lift, ret, get.
  destruct (gemini t goalModel (goal_request message)) as [e|[text|]];
    simpl; try reflexivity.
  destruct (nonempty text); simpl; try reflexivity.
  destruct (JSON_parse_or_throw E text) as [v|e]; simpl; [|reflexivity].
  destruct v; reflexivity.
Qed.

Lemma roadmap_try_trace (full : jsstring) (t : trace) :
  snd (roadmap_try E gemini full t)
  = t ++ [Requested chatModel (roadmap_request full)].
Proof.
  unfold roadmap_try, bind, generateContent, throw, lift, ret, get.
  destruct (gemini t chatModel (roadmap_request full)) as [e|[text|]];
    simpl; try reflexivity.
  destruct (nonempty text); simpl; try reflexivity.
  destruct (JSON_parse_or_throw E text) as [v|e]; simpl; [|reflexivity].
  destruct v; reflexivity.
Qed.

Lemma preprocess_returns (message : jsstring) (t : trace) (pg : PreprocessedGoal) :
  fst (preprocess_try E gemini message t) = Returns pg ->
  preprocess E gemini message t
  = (Returns pg, t ++ [Requested goalModel (goal_request message)]).
Proof.
  intros H. unfold preprocess, try_catch.
  pose proof (preprocess_try_trace message t) as Ht.
  destruct (preprocess_try E gemini message t) as [o t']; simpl in *.
  now subst.
Qed.

Lemma preprocess_throws (message : jsstring) (t : trace) (err : js_error) :
  fst (preprocess_try E gemini message t) = Throws err ->
  preprocess E gemini message t
  = (Throws (rethrown (preprocess_failure err) err),
     (t ++ [Requested goalModel (goal_request message)])
     ++ logged (js "Gemini preprocessing failed:") err).
Proof.
  intros H. unfold preprocess, try_catch.
  pose proof (preprocess_try_trace message t) as Ht.
  destruct (preprocess_try E gemini message t) as [o t']; simpl in *.
  subst. unfold preprocess_handler, bind, console_error, throw, lift,
    logged, rethrown.
  destruct (raw_output err) as [raw|e'];
    [now rewrite <- app_assoc|reflexivity].
Qed.

(** No identifier [text] where the handler runs. *)
Lemma text_not_in_handler_scope (userMessage : jsstring) (pg : PreprocessedGoal)
    (prompt full : jsstring) (err : js_error) :
  resolve (js "text") (handler_scope userMessage pg prompt full err) = None.
Proof. reflexivity. Qed.

Lemma fallback_in_handler (userMessage : jsstring) (pg : PreprocessedGoal)
    (prompt full : jsstring) (err : js_error) :
  fallback E (handler_scope userMessage pg prompt full err)
  = Throws (ReferenceError_ (js "text")).
Proof. reflexivity. Qed.

Lemma roadmap_handler_rethrows (userMessage : jsstring) (pg : PreprocessedGoal)
    (prompt full : jsstring) (err : js_error) (t : trace) :
  roadmap_handler E (handler_scope userMessage pg prompt full) err t
  = (Throws (rethrown (roadmap_failure err) err),
     t ++ logged (js "Gemini generation failed:") err).
Proof.
  unfold roadmap_handler. rewrite fallback_in_handler.
  unfold bind, console_error, throw, lift, logged, rethrown.
  destruct (raw_output err) as [raw|e'];
    [now rewrite <- app_assoc|reflexivity].
Qed.

(** [generateRoadmap], stage by stage. *)
Lemma generateRoadmap_goal_failed (userMessage : jsstring) (t t1 : trace)
    (e : js_error) :
  preprocess E gemini userMessage t = (Throws e, t1) ->
  generateRoadmap E gemini buildRoadmapPrompt userMessage t = (Throws e, t1).
Proof. intros H. unfold generateRoadmap, bind. now rewrite H. Qed.

Lemma generateRoadmap_returns (userMessage : jsstring) (t t1 : trace)
    (pg : PreprocessedGoal) (r : RoadmapResponse) :
  preprocess E gemini userMessage t = (Returns pg, t1) ->
  fst (roadmap_try E gemini
         (fullPrompt userMessage
            (buildRoadmapPrompt (goal pg) (known pg) (experienceLevel pg))) t1)
  = Returns r ->
  generateRoadmap E gemini buildRoadmapPrompt userMessage t
  = (Returns r,
     t1 ++ [Requested chatModel
              (roadmap_request
                 (fullPrompt userMessage
                    (buildRoadmapPrompt (goal pg) (known pg) (experienceLevel pg))))]).
Proof.
  intros H Hr. unfold generateRoadmap, bind. rewrite H.
  unfold roadmap_stage, try_catch.
  match goal with |- context [roadmap_try E gemini ?f t1] =>
    pose proof (roadmap_try_trace f t1) as Ht;
    destruct (roadmap_try E gemini f t1) as [o t2] end.
  simpl in *. now subst.
Qed.

Lemma generateRoadmap_throws (userMessage : jsstring) (t t1 : trace)
    (pg : PreprocessedGoal) (err : js_error) :
  preprocess E gemini userMessage t = (Returns pg, t1) ->
  fst (roadmap_try E gemini
         (fullPrompt userMessage
            (buildRoadmapPrompt (goal pg) (known pg) (experienceLevel pg))) t1)
  = Throws err ->
  generateRoadmap E gemini buildRoadmapPrompt userMessage t
  = (Throws (rethrown (roadmap_failure err) err),
     (t1 ++ [Requested chatModel
               (roadmap_request
                  (fullPrompt userMessage
                     (buildRoadmapPrompt (goal pg) (known pg) (experienceLevel pg))))])
     ++ logged (js "Gemini generation failed:") err).
Proof.
  intros H Hr. unfold generateRoadmap, bind. rewrite H.
  unfold roadmap_stage, try_catch.
  match goal with |- context [roadmap_try E gemini ?f t1] =>
    pose proof (roadmap_try_trace f t1) as Ht;
    destruct (roadmap_try E gemini f t1) as [o t2] end.
  simpl in *. subst. apply roadmap_handler_rethrows.
Qed.

(** What the [try] blocks throw for each kind of failure. *)
Lemma preprocess_try_fails (message : jsstring) (t : trace) (e : js_error) :
  stage_fails E (gemini t goalModel (goal_request message)) e ->
  fst (preprocess_try E gemini message t) = Throws e.
Proof.
  intros H. unfold preprocess_try, bind, generateContent.
  inversion H as [e' Hg|Hg|Hg|text Hne Hp Hg]; subst; try reflexivity.
  unfold JSON_parse_or_throw, lift, throw. rewrite Hp.
  destruct text; [congruence|reflexivity].
Qed.

Lemma roadmap_try_fails (full : jsstring) (t : trace) (e : js_error) :
  stage_fails E (gemini t chatModel (roadmap_request full)) e ->
  fst (roadmap_try E gemini full t) = Throws e.
Proof.
  intros H. unfold roadmap_try, bind, generateContent.
  inversion H as [e' Hg|Hg|Hg|text Hne Hp Hg]; subst; try reflexivity.
  unfold JSON_parse_or_throw, lift, throw. rewrite Hp.
  destruct text; [congruence|reflexivity].
Qed.

End Runs.

(** ** [trim] on the two templates *)

Lemma trimStart_app (a b : jsstring) :
  trimStart a <> [] -> trimStart (a ++ b) = trimStart a ++ b.
Proof.
  induction a as [|c a IH]; simpl; [congruence|].
  destruct (is_js_space c); [exact IH|reflexivity].
Qed.

Lemma trimEnd_app (a b : jsstring) :
  trimEnd b <> [] -> trimEnd (a ++ b) = a ++ trimEnd b.
Proof.
  unfold trimEnd. intros H. rewrite rev_app_distr, trimStart_app.
  - now rewrite rev_app_distr, rev_involutive.
  - intros Hn. apply H. now rewrite Hn.
Qed.

Lemma trim_template (head body tail : jsstring) :
  trimStart head <> [] -> trimEnd tail <> [] ->
  trim (head ++ body ++ tail) = trimStart head ++ body ++ trimEnd tail.
Proof.
  intros Hh Ht. unfold trim. rewrite trimStart_app by assumption.
  rewrite app_assoc, trimEnd_app by assumption. now rewrite <- app_assoc.
Qed.

Lemma fullPrompt_chunks (userMessage prompt : jsstring) :
  fullPrompt userMessage prompt
  = trimStart roadmap_template_head ++ userMessage ++ roadmap_template_middle
    ++ prompt ++ trimEnd roadmap_template_tail.
Proof.
  unfold fullPrompt.
  replace (roadmap_template_head ++ userMessage ++ roadmap_template_middle
           ++ prompt ++ roadmap_template_tail)
    with (roadmap_template_head
          ++ (userMessage ++ roadmap_template_middle ++ prompt)
          ++ roadmap_template_tail)
    by now rewrite <- !app_assoc.
  rewrite trim_template; [now rewrite <- !app_assoc| |]; vm_compute; discriminate.
Qed.

Lemma goal_prompt_chunks (message : jsstring) :
  goal_prompt message
  = trimStart goal_template_head ++ message ++ trimEnd goal_template_tail.
Proof.
  unfold goal_prompt. apply trim_template; vm_compute; discriminate.
Qed.

(** ** The shape of a run *)

(** The requests a run adds to the trace. *)
Lemma generateRoadmap_requests
    (E : engine) (gemini : trace -> GenerativeModel -> request -> reply)
    (buildRoadmapPrompt : jsval -> jsval -> jsval -> jsstring)
    (userMessage : jsstring) (t : trace) :
  requests (snd (generateRoadmap E gemini buildRoadmapPrompt userMessage t))
  = requests t
    ++ (goalModel, goal_request userMessage)
       :: match fst (preprocess E gemini userMessage t) with
          | Returns pg =>
              [(chatModel,
                roadmap_request
                  (fullPrompt userMessage
                     (buildRoadmapPrompt (goal pg) (known pg)
                        (experienceLevel pg))))]
          | Throws _ => []
          end.
Proof.
  destruct (fst (preprocess_try E gemini userMessage t)) as [pg|e] eqn:H1.
  - rewrite (preprocess_returns _ _ _ _ H1). simpl fst.
    destruct (fst (roadmap_try E gemini
                     (fullPrompt userMessage
                        (buildRoadmapPrompt (goal pg) (known pg)
                           (experienceLevel pg)))
                     (t ++ [Requested goalModel (goal_request userMessage)])))
      as [r|err] eqn:H2.
    + rewrite (generateRoadmap_returns _ _ buildRoadmapPrompt _ _
                 (preprocess_returns _ _ _ _ H1) H2).
      simpl snd. now rewrite !requests_app, <- app_assoc.
    + rewrite (generateRoadmap_throws _ _ buildRoadmapPrompt _ _
                 (preprocess_returns _ _ _ _ H1) H2).
      simpl snd.
      now rewrite !requests_app, requests_logged, app_nil_r, <- ?app_assoc.
  - rewrite (preprocess_throws _ _ _ _ H1). simpl fst.
    rewrite (generateRoadmap_goal_failed _ _ buildRoadmapPrompt _ _
               (preprocess_throws _ _ _ _ H1)).
    simpl snd.
    now rewrite !requests_app, requests_logged, app_nil_r, <- ?app_assoc.
Qed.


(** C8. A run is the goal stage followed by the roadmap stage: whatever
    happened before, it first sends the goal-extraction request built from the
    message; if that stage fails nothing more is sent, and otherwise exactly
    one roadmap request follows, whose prompt is built from the extracted
    goal, known and experienceLevel and holds the original message verbatim
    between two fixed chunks.  Nothing is sent twice and nothing is reused
    from the earlier trace. *)
Theorem generateRoadmap_is_sequential_composition
    (E : engine) (gemini : trace -> GenerativeModel -> request -> reply)
    (buildRoadmapPrompt : jsval -> jsval -> jsval -> jsstring)
    (userMessage : jsstring) (t : trace) :
  generateRoadmap E gemini buildRoadmapPrompt userMessage t
  = match preprocess E gemini userMessage t with
    | (Returns pg, t1) =>
        roadmap_stage E gemini buildRoadmapPrompt userMessage pg t1
    | (Throws e, t1) => (Throws e, t1)
    end
  /\ requests (snd (generateRoadmap E gemini buildRoadmapPrompt userMessage t))
     = requests t
       ++ (goalModel, goal_request userMessage)
          :: match fst (preprocess E gemini userMessage t) with
             | Returns pg =>
                 [(chatModel,
                   roadmap_request
                     (fullPrompt userMessage
                        (buildRoadmapPrompt (goal pg) (known pg)
                           (experienceLevel pg))))]
             | Throws _ => []
             end
  /\ contents (goal_request userMessage)
     = trimStart goal_template_head ++ userMessage ++ trimEnd goal_template_tail
  /\ forall prompt,
       contents (roadmap_request (fullPrompt userMessage prompt))
       = trimStart roadmap_template_head ++ userMessage
         ++ roadmap_template_middle ++ prompt ++ trimEnd roadmap_template_tail.
Proof.
  split; [|split; [|split]].
  - unfold generateRoadmap, bind.
    destruct (preprocess E gemini userMessage t) as [[pg|e] t1]; reflexivity.
  - apply generateRoadmap_requests.
  - exact (goal_prompt_chunks userMessage).
  - intros prompt. exact (fullPrompt_chunks userMessage prompt).
Qed.


(** ** Failures *)

(** C2. Whenever the [try] block of [generateRoadmap] throws, for whatever
    reason, the run never ends with a value: the handler's scope has no
    [text], so its fallback block stops with a ReferenceError, which the
    inner [catch] ignores.  The run ends with the wrapped error when the
    argument of the handler's second log line is evaluated without a throw,
    as it is for every error that has no [response]; when
    [err.response.text()] throws, the run ends with what that call throws,
    before the fallback block is reached. *)
Theorem fallback_never_returns
    (E : engine) (gemini : trace -> GenerativeModel -> request -> reply)
    (buildRoadmapPrompt : jsval -> jsval -> jsval -> jsstring)
    (userMessage : jsstring) (t t1 : trace) (pg : PreprocessedGoal)
    (err : js_error) :
  preprocess E gemini userMessage t = (Returns pg, t1) ->
  fst (roadmap_try E gemini
         (fullPrompt userMessage
            (buildRoadmapPrompt (goal pg) (known pg) (experienceLevel pg))) t1)
  = Throws err ->
  resolve (js "text")
    (handler_scope userMessage pg
       (buildRoadmapPrompt (goal pg) (known pg) (experienceLevel pg))
       (fullPrompt userMessage
          (buildRoadmapPrompt (goal pg) (known pg) (experienceLevel pg)))
       err) = None
  /\ fallback E
       (handler_scope userMessage pg
          (buildRoadmapPrompt (goal pg) (known pg) (experienceLevel pg))
          (fullPrompt userMessage
             (buildRoadmapPrompt (goal pg) (known pg) (experienceLevel pg)))
          err)
     = Throws (ReferenceError_ (js "text"))
  /\ (forall r,
        fst (generateRoadmap E gemini buildRoadmapPrompt userMessage t)
        <> Returns r)
  /\ fst (generateRoadmap E gemini buildRoadmapPrompt userMessage t)
     = match raw_output err with
       | Returns _ =>
           Throws (Error_ (js "Failed to generate or parse roadmap: "
                           ++ err_message err))
       | Throws raised => Throws raised
       end
  /\ (err_response err = None ->
      fst (generateRoadmap E gemini buildRoadmapPrompt userMessage t)
      = Throws (Error_ (js "Failed to generate or parse roadmap: "
                        ++ err_message err))).
Proof.
  intros H1 H2.
  split; [apply text_not_in_handler_scope|].
  split; [apply fallback_in_handler|].
  rewrite (generateRoadmap_throws _ _ buildRoadmapPrompt _ _ H1 H2).
  unfold rethrown, raw_output, roadmap_failure. simpl fst.
  split; [intros r; discriminate|].
  split; [now destruct (err_response err) as [[| | |]|]|].
  intros Hr. now rewrite Hr.
Qed.

Lemma fallback_never_returns_witness :
  exists pg t1,
    preprocess sample_engine
      (scripted [Responds (Some sample_goal_text);
                 Fails blocked_response_error])
      (js "Teach me TypeScript") [] = (Returns pg, t1)
    /\ fst (roadmap_try sample_engine
              (scripted [Responds (Some sample_goal_text);
                         Fails blocked_response_error])
              (fullPrompt (js "Teach me TypeScript")
                 (sample_buildRoadmapPrompt (goal pg) (known pg)
                    (experienceLevel pg))) t1)
       = Throws blocked_response_error
    /\ fst (generateRoadmap sample_engine
              (scripted [Responds (Some sample_goal_text);
                         Fails blocked_response_error])
              sample_buildRoadmapPrompt (js "Teach me TypeScript") [])
       = Throws blocked_response_error.
Proof.
  do 2 eexists. split; [reflexivity|]. split; [reflexivity|].
  edestruct (@fallback_never_returns sample_engine
               (scripted [Responds (Some sample_goal_text);
                          Fails blocked_response_error])
               sample_buildRoadmapPrompt (js "Teach me TypeScript") [])
    as (_ & _ & _ & H & _); [reflexivity|reflexivity|exact H].
Defined.

(** C3. When the roadmap call hands back no text, or the empty text, the run
    fails with the wrapped error whose message names the empty response; the
    handler's fallback block stops at the unresolved identifier, before any
    scan or decode, and nothing else is requested. *)
Theorem empty_response_fails
    (E : engine) (gemini : trace -> GenerativeModel -> request -> reply)
    (buildRoadmapPrompt : jsval -> jsval -> jsval -> jsstring)
    (userMessage : jsstring) (t t1 : trace) (pg : PreprocessedGoal)
    (text : option jsstring) :
  preprocess E gemini userMessage t = (Returns pg, t1) ->
  gemini t1 chatModel
    (roadmap_request
       (fullPrompt userMessage
          (buildRoadmapPrompt (goal pg) (known pg) (experienceLevel pg))))
  = Responds text ->
  text = None \/ text = Some [] ->
  fst (generateRoadmap E gemini buildRoadmapPrompt userMessage t)
  = Throws (Error_ (js "Failed to generate or parse roadmap: Empty response from Gemini"))
  /\ fallback E
       (handler_scope userMessage pg
          (buildRoadmapPrompt (goal pg) (known pg) (experienceLevel pg))
          (fullPrompt userMessage
             (buildRoadmapPrompt (goal pg) (known pg) (experienceLevel pg)))
          (Error_ (js "Empty response from Gemini")))
     = Throws (ReferenceError_ (js "text"))
  /\ requests (snd (generateRoadmap E gemini buildRoadmapPrompt userMessage t))
     = requests t1
       ++ [(chatModel,
            roadmap_request
              (fullPrompt userMessage
                 (buildRoadmapPrompt (goal pg) (known pg) (experienceLevel pg))))].
Proof.
  intros H1 Hg Hempty.
  assert (Hf : stage_fails E (Responds text)
                 (Error_ (js "Empty response from Gemini")))
    by (destruct Hempty; subst; constructor).
  rewrite <- Hg in Hf. apply roadmap_try_fails in Hf.
  rewrite (generateRoadmap_throws _ _ buildRoadmapPrompt _ _ H1 Hf).
  split; [reflexivity|]. split; [reflexivity|].
  simpl snd. rewrite !requests_app. simpl. now rewrite app_nil_r.
Qed.

Lemma empty_response_fails_witness :
  exists pg t1,
    preprocess sample_engine
      (scripted [Responds (Some sample_goal_text); Responds (Some [])])
      (js "Teach me TypeScript") [] = (Returns pg, t1)
    /\ scripted [Responds (Some sample_goal_text); Responds (Some [])] t1
         chatModel
         (roadmap_request
            (fullPrompt (js "Teach me TypeScript")
               (sample_buildRoadmapPrompt (goal pg) (known pg)
                  (experienceLevel pg))))
       = Responds (Some [])
    /\ fst (generateRoadmap sample_engine
              (scripted [Responds (Some sample_goal_text); Responds (Some [])])
              sample_buildRoadmapPrompt (js "Teach me TypeScript") [])
       = Throws (Error_ (js "Failed to generate or parse roadmap: Empty response from Gemini")).
Proof.
  do 2 eexists. split; [reflexivity|]. split; [reflexivity|].
  eapply empty_response_fails; [reflexivity|reflexivity|right; reflexivity].
Defined.

(** C9. Whatever the [try] block of a stage throws (and it throws when the
    service fails, when the text is missing or empty, and when the text does
    not decode) is not suppressed: the run throws.  It throws one [Error],
    wrapped once, whose message ends with the message of the original error,
    when the argument of the handler's second log line is evaluated without
    a throw, as it is for the empty response and for the text that does not
    decode; when [err.response.text()] throws, the run throws what that call
    throws, unwrapped.  A failure of the goal stage ends the run: no
    fallback is tried there and no roadmap request is sent. *)
Theorem failures_reach_the_caller
    (E : engine) (gemini : trace -> GenerativeModel -> request -> reply)
    (buildRoadmapPrompt : jsval -> jsval -> jsval -> jsstring)
    (userMessage : jsstring) (t : trace) :
  (forall e,
     stage_fails E (gemini t goalModel (goal_request userMessage)) e ->
     fst (preprocess_try E gemini userMessage t) = Throws e)
  /\ (forall e,
        fst (preprocess_try E gemini userMessage t) = Throws e ->
        fst (generateRoadmap E gemini buildRoadmapPrompt userMessage t)
        = match raw_output e with
          | Returns _ =>
              Throws (Error_ (js "Failed to preprocess goal with Gemini: "
                              ++ err_message e))
          | Throws raised => Throws raised
          end
        /\ requests (snd (generateRoadmap E gemini buildRoadmapPrompt
                            userMessage t))
           = requests t ++ [(goalModel, goal_request userMessage)])
  /\ (forall pg t1 e,
        preprocess E gemini userMessage t = (Returns pg, t1) ->
        (stage_fails E
           (gemini t1 chatModel
              (roadmap_request
                 (fullPrompt userMessage
                    (buildRoadmapPrompt (goal pg) (known pg)
                       (experienceLevel pg))))) e ->
         fst (roadmap_try E gemini
                (fullPrompt userMessage
                   (buildRoadmapPrompt (goal pg) (known pg)
                      (experienceLevel pg))) t1)
         = Throws e)
        /\ (fst (roadmap_try E gemini
                   (fullPrompt userMessage
                      (buildRoadmapPrompt (goal pg) (known pg)
                         (experienceLevel pg))) t1)
            = Throws e ->
            fst (generateRoadmap E gemini buildRoadmapPrompt userMessage t)
            = match raw_output e with
              | Returns _ =>
                  Throws (Error_ (js "Failed to generate or parse roadmap: "
                                  ++ err_message e))
              | Throws raised => Throws raised
              end))
  /\ (forall text,
        raw_output (Error_ text) = Returns JUndefined
        /\ raw_output (SyntaxError_ E text) = Returns JUndefined).
Proof.
  split; [|split; [|split]].
  - intros e. apply preprocess_try_fails.
  - intros e Hf.
    rewrite (generateRoadmap_goal_failed _ _ buildRoadmapPrompt _ _
               (preprocess_throws _ _ _ _ Hf)).
    split; [unfold rethrown; simpl fst; now destruct (raw_output e)|].
    simpl snd.
    now rewrite !requests_app, requests_logged, app_nil_r.
  - intros pg t1 e H1. split.
    + apply roadmap_try_fails.
    + intros Hf.
      rewrite (generateRoadmap_throws _ _ buildRoadmapPrompt _ _ H1 Hf).
      unfold rethrown; simpl fst; now destruct (raw_output e).
  - intros text. split; reflexivity.
Qed.

Lemma failures_reach_the_caller_witness :
  (stage_fails sample_engine
     (scripted [Fails blocked_response_error] []
        goalModel (goal_request (js "Teach me TypeScript")))
     blocked_response_error
   /\ fst (generateRoadmap sample_engine
             (scripted [Fails blocked_response_error])
             sample_buildRoadmapPrompt (js "Teach me TypeScript") [])
      = Throws blocked_response_error)
  /\ (exists pg t1,
        preprocess sample_engine
          (scripted [Responds (Some sample_goal_text);
                     Fails (Error_ (js "429 Too Many Requests"))])
          (js "Teach me TypeScript") [] = (Returns pg, t1)
        /\ stage_fails sample_engine
             (scripted [Responds (Some sample_goal_text);
                        Fails (Error_ (js "429 Too Many Requests"))] t1
                chatModel
                (roadmap_request
                   (fullPrompt (js "Teach me TypeScript")
                      (sample_buildRoadmapPrompt (goal pg) (known pg)
                         (experienceLevel pg)))))
             (Error_ (js "429 Too Many Requests"))
        /\ fst (generateRoadmap sample_engine
                  (scripted [Responds (Some sample_goal_text);
                             Fails (Error_ (js "429 Too Many Requests"))])
                  sample_buildRoadmapPrompt (js "Teach me TypeScript") [])
           = Throws (Error_ (js "Failed to generate or parse roadmap: 429 Too Many Requests"))).
Proof.
  assert (H0 : stage_fails sample_engine (Fails blocked_response_error)
                 blocked_response_error) by constructor.
  split.
  - split; [exact H0|].
    destruct (failures_reach_the_caller sample_engine
                (scripted [Fails blocked_response_error])
                sample_buildRoadmapPrompt (js "Teach me TypeScript") [])
      as (Hkind & Hgoal & _).
    exact (proj1 (Hgoal _ (Hkind _ H0))).
  - do 2 eexists. split; [reflexivity|]. split; [constructor|].
    destruct (failures_reach_the_caller sample_engine
                (scripted [Responds (Some sample_goal_text);
                           Fails (Error_ (js "429 Too Many Requests"))])
                sample_buildRoadmapPrompt (js "Teach me TypeScript") [])
      as (_ & _ & Hroadmap & _).
    destruct (Hroadmap _ _ (Error_ (js "429 Too Many Requests")) eq_refl)
      as [Hkind Hwrap].
    apply Hwrap, Hkind. constructor.
Defined.

(** ** [JSON.parse] reads back what [encode] writes *)

Lemma hex_digit_hex_char (d : N) : d < 16 -> hex_digit (hex_char d) = Some d.
Proof.
  intros H. destruct d as [|p]; [reflexivity|].
  do 4 (try destruct p as [p|p|]); try reflexivity; lia.
Qed.

Lemma lex_escape_u (c : N) (sacc : jsstring) (acc : list token) (r : jsstring) :
  c < 32 ->
  lex (LString sacc) acc
    ([92; 117; 48; 48; hex_char (c / 16); hex_char (c mod 16)] ++ r)
  = lex (LString (c :: sacc)) acc r.
Proof.
  intros H. destruct c as [|p]; [reflexivity|].
  do 5 (try destruct p as [p|p|]); try reflexivity; lia.
Qed.

Lemma lex_escape_unit (c : N) (sacc : jsstring) (acc : list token) (r : jsstring) :
  lex (LString sacc) acc (escape_unit c ++ r) = lex (LString (c :: sacc)) acc r.
Proof.
  unfold escape_unit.
  destruct (N.eqb_spec c 34); [subst; reflexivity|].
  destruct (N.eqb_spec c 92); [subst; reflexivity|].
  destruct (N.eqb_spec c 8); [subst; reflexivity|].
  destruct (N.eqb_spec c 9); [subst; reflexivity|].
  destruct (N.eqb_spec c 10); [subst; reflexivity|].
  destruct (N.eqb_spec c 12); [subst; reflexivity|].
  destruct (N.eqb_spec c 13); [subst; reflexivity|].
  destruct (N.ltb_spec c 32) as [Hlt|Hge]; [now apply lex_escape_u|].
  simpl.
  destruct (N.eqb_spec c 34); [contradiction|].
  destruct (N.eqb_spec c 92); [contradiction|].
  destruct (N.ltb_spec c 32); [lia|reflexivity].
Qed.

Lemma lex_string_body (s sacc : jsstring) (acc : list token) (rest : jsstring) :
  lex (LString sacc) acc (flat_map escape_unit s ++ 34 :: rest)
  = lex LIdle (TString (rev sacc ++ s) :: acc) rest.
Proof.
  revert sacc. induction s as [|c s IH]; intros sacc.
  - simpl. now rewrite app_nil_r.
  - simpl flat_map. rewrite <- app_assoc, lex_escape_unit, IH.
    simpl rev. now rewrite <- app_assoc.
Qed.

Lemma lex_encode_string (s : jsstring) (acc : list token) (rest : jsstring) :
  lex LIdle acc (encode_string s ++ rest) = lex LIdle (TString s :: acc) rest.
Proof.
  unfold encode_string, dq. rewrite <- !app_assoc. simpl.
  exact (lex_string_body s [] acc rest).
Qed.

Lemma lex_word_chars (w wacc : jsstring) (acc : list token) (rest : jsstring) :
  forallb is_word_char w = true ->
  lex (LWord wacc) acc (w ++ rest) = lex (LWord (rev w ++ wacc)) acc rest.
Proof.
  revert wacc. induction w as [|c w IH]; intros wacc H; [reflexivity|].
  simpl in H. apply andb_true_iff in H as [Hc Hw].
  simpl. rewrite Hc. simpl. rewrite IH by assumption.
  now rewrite <- app_assoc.
Qed.

Lemma lex_word_end (w : jsstring) (t : token) (acc : list token) (rest : jsstring) :
  word_token (rev w) = Some t -> no_word_start rest ->
  lex (LWord w) acc rest = lex LIdle (t :: acc) rest.
Proof.
  intros Hw Hrest. destruct rest as [|c r]; simpl.
  - now rewrite Hw.
  - simpl in Hrest. rewrite Hrest, Hw.
    destruct (lex_idle c) as [[ts st']|]; reflexivity.
Qed.

Lemma lex_idle_word_char (c : N) :
  is_word_char c = true -> lex_idle c = Some ([], LWord [c]).
Proof.
  intros H. unfold lex_idle, is_json_ws, punctuator. rewrite H.
  repeat match goal with
    | |- context [N.eqb c ?k] =>
        destruct (N.eqb_spec c k); [subst c; vm_compute in H; discriminate|]
    end.
  reflexivity.
Qed.

Lemma lex_word (w : jsstring) (t : token) (acc : list token) (rest : jsstring) :
  w <> [] -> forallb is_word_char w = true -> word_token w = Some t ->
  no_word_start rest ->
  lex LIdle acc (w ++ rest) = lex LIdle (t :: acc) rest.
Proof.
  intros Hne Hall Ht Hrest. destruct w as [|c w]; [congruence|].
  simpl in Hall. apply andb_true_iff in Hall as [Hc Hw].
  simpl. rewrite (lex_idle_word_char _ Hc). simpl.
  rewrite lex_word_chars by assumption.
  apply lex_word_end; [|assumption].
  now rewrite rev_app_distr, rev_involutive.
Qed.

Lemma is_digit_word (c : N) : is_digit c = true -> is_word_char c = true.
Proof. unfold is_word_char. now intros ->. Qed.

Lemma span_digits_word (s d rest : jsstring) :
  span_digits s = (d, rest) ->
  forallb is_word_char s = forallb is_word_char rest.
Proof.
  revert d rest. induction s as [|c s IH]; intros d rest H; simpl in H.
  - now inversion H.
  - destruct (is_digit c) eqn:Hc.
    + destruct (span_digits s) as [d' rest'] eqn:Hs. inversion H; subst.
      simpl. rewrite (is_digit_word _ Hc). simpl. now apply (IH d').
    + now inversion H.
Qed.

Lemma nonempty_false (s : jsstring) : negb (nonempty s) = true -> s = [].
Proof. destruct s; [reflexivity|discriminate]. Qed.

Lemma number_exp_word (s : jsstring) :
  number_exp s = true -> forallb is_word_char s = true.
Proof.
  destruct s as [|c r]; [reflexivity|]. simpl. intros H.
  apply andb_true_iff in H as [Hc H].
  assert (Hw : is_word_char c = true).
  { apply orb_true_iff in Hc as [Hc|Hc]; apply N.eqb_eq in Hc; now subst. }
  rewrite Hw. simpl.
  destruct r as [|sg r2]; [discriminate H|].
  destruct ((sg =? 43) || (sg =? 45)) eqn:Hs.
  - destruct (span_digits r2) as [d rest] eqn:Hsp.
    apply andb_true_iff in H as [_ H]. apply nonempty_false in H. subst rest.
    simpl. rewrite (span_digits_word _ Hsp). simpl. rewrite andb_true_r.
    apply orb_true_iff in Hs as [Hs|Hs]; apply N.eqb_eq in Hs; now subst.
  - destruct (span_digits (sg :: r2)) as [d rest] eqn:Hsp.
    apply andb_true_iff in H as [_ H]. apply nonempty_false in H. subst rest.
    now rewrite (span_digits_word _ Hsp).
Qed.

Lemma number_frac_word (s : jsstring) :
  number_frac s = true -> forallb is_word_char s = true.
Proof.
  destruct s as [|c r]; [reflexivity|]. unfold number_frac.
  destruct (N.eqb_spec c 46) as [->|Hc]; [|apply number_exp_word].
  destruct (span_digits r) as [d rest] eqn:Hsp. intros H.
  apply andb_true_iff in H as [_ H]. simpl.
  rewrite (span_digits_word _ Hsp). now apply number_exp_word.
Qed.

Lemma number_int_word (s : jsstring) :
  number_int s = true -> forallb is_word_char s = true.
Proof.
  destruct s as [|c r]; [discriminate|]. unfold number_int.
  destruct (N.eqb_spec c 48) as [->|Hc].
  - intros H. simpl. now apply number_frac_word.
  - destruct (is_digit c) eqn:Hd; [|discriminate].
    destruct (span_digits r) as [d rest] eqn:Hsp. intros H.
    simpl. rewrite (is_digit_word _ Hd), (span_digits_word _ Hsp).
    now apply number_frac_word.
Qed.

Lemma valid_number_word (s : jsstring) :
  valid_number s = true -> forallb is_word_char s = true.
Proof.
  destruct s as [|c r]; [discriminate|]. unfold valid_number.
  destruct (N.eqb_spec c 45) as [->|Hc]; [|apply number_int_word].
  intros H. simpl. now apply number_int_word.
Qed.

Lemma valid_number_token (s : jsstring) :
  valid_number s = true -> word_token s = Some (TNumber s).
Proof.
  intros H. unfold word_token.
  destruct (jsstring_eqb s (js "true")) eqn:H1;
    [apply jsstring_eqb_eq in H1; subst; discriminate H|].
  destruct (jsstring_eqb s (js "false")) eqn:H2;
    [apply jsstring_eqb_eq in H2; subst; discriminate H|].
  destruct (jsstring_eqb s (js "null")) eqn:H3;
    [apply jsstring_eqb_eq in H3; subst; discriminate H|].
  now rewrite H.
Qed.

Lemma lex_number (l : jsstring) (acc : list token) (rest : jsstring) :
  valid_number l = true -> no_word_start rest ->
  lex LIdle acc (l ++ rest) = lex LIdle (TNumber l :: acc) rest.
Proof.
  intros H Hrest. apply lex_word; try assumption.
  - destruct l; [discriminate H|discriminate].
  - now apply valid_number_word.
  - now apply valid_number_token.
Qed.

(** Induction on values, through the lists they nest. *)
Lemma jsval_nested_ind (P : jsval -> Prop) :
  P JUndefined -> P JNull -> (forall b, P (JBool b)) ->
  (forall l, P (JNum l)) -> (forall s, P (JStr s)) ->
  (forall vs, Forall P vs -> P (JArr vs)) ->
  (forall ms, Forall (fun m => P (snd m)) ms -> P (JObj ms)) ->
  forall v, P v.
Proof.
  intros HU HN HB HNum HS HA HO. fix IH 1. intros [| |b|l|s|vs|ms].
  - exact HU.
  - exact HN.
  - apply HB.
  - apply HNum.
  - apply HS.
  - apply HA. induction vs as [|x r IHr]; constructor; [apply IH|exact IHr].
  - apply HO. induction ms as [|[k x] r IHr]; constructor; [apply IH|exact IHr].
Qed.

Lemma reads_strong_reads (text : jsstring) (toks : list token) :
  reads_strong text toks -> reads text toks.
Proof. intros H acc rest _. apply H. Qed.

Lemma reads_strong_app (t1 t2 : jsstring) (k1 k2 : list token) :
  reads_strong t1 k1 -> reads t2 k2 -> reads (t1 ++ t2) (k1 ++ k2).
Proof.
  intros H1 H2 acc rest Hrest.
  rewrite <- app_assoc, H1, (H2 _ _ Hrest), rev_app_distr.
  now rewrite <- app_assoc.
Qed.

Lemma no_word_start_app (t rest : jsstring) :
  no_word_start t -> no_word_start rest -> no_word_start (t ++ rest).
Proof. destruct t; simpl; auto. Qed.

Lemma reads_app (t1 t2 : jsstring) (k1 k2 : list token) :
  reads t1 k1 -> reads t2 k2 -> no_word_start t2 -> reads (t1 ++ t2) (k1 ++ k2).
Proof.
  intros H1 H2 Hd acc rest Hrest.
  rewrite <- app_assoc, (H1 _ _ (no_word_start_app _ _ Hd Hrest)),
    (H2 _ _ Hrest), rev_app_distr.
  now rewrite <- app_assoc.
Qed.

Lemma reads_punctuator (c : N) (t : token) :
  lex_idle c = Some ([t], LIdle) -> reads_strong [c] [t].
Proof. intros H acc rest. simpl. now rewrite H. Qed.

Lemma reads_encode_string (s : jsstring) : reads_strong (encode_string s) [TString s].
Proof. intros acc rest. apply lex_encode_string. Qed.

Lemma flat_map_cons_app {A B : Type} (f : A -> list B) (x : A) (r : list A)
    (z : list B) :
  flat_map f (x :: r) ++ z = f x ++ flat_map f r ++ z.
Proof. simpl. now rewrite app_assoc. Qed.

Lemma reads_array_tail (r : list jsval) :
  Forall (fun y => is_json y = true -> reads (encode y) (tokens y)) r ->
  forallb is_json r = true ->
  reads (flat_map (fun y => js "," ++ encode y) r ++ js "]")
        (flat_map (fun y => TComma :: tokens y) r ++ [TRBracket])
  /\ no_word_start (flat_map (fun y => js "," ++ encode y) r ++ js "]").
Proof.
  induction 1 as [|y r Hy Hr IH]; intros Hj.
  - split; [|reflexivity].
    apply reads_strong_reads, reads_punctuator. reflexivity.
  - simpl in Hj. apply andb_true_iff in Hj as [Hjy Hjr].
    destruct (IH Hjr) as [IHr Hd]. split; [|reflexivity].
    cbn [flat_map]. rewrite <- !app_assoc.
    apply (reads_strong_app (t1 := js ",") (k1 := [TComma])).
    + apply reads_punctuator. reflexivity.
    + now apply reads_app; [apply Hy| |].
Qed.

Lemma reads_object_tail (r : list (jsstring * jsval)) :
  Forall (fun m => is_json (snd m) = true -> reads (encode (snd m)) (tokens (snd m))) r ->
  forallb (fun m => match m with (_, x) => is_json x end) r = true ->
  reads (flat_map (fun m => match m with
                            | (k', y) =>
                                js "," ++ encode_string k' ++ js ":" ++ encode y
                            end) r ++ js "}")
        (flat_map (fun m => match m with
                            | (k', y) => TComma :: TString k' :: TColon :: tokens y
                            end) r ++ [TRBrace])
  /\ no_word_start
       (flat_map (fun m => match m with
                           | (k', y) =>
                               js "," ++ encode_string k' ++ js ":" ++ encode y
                           end) r ++ js "}").
Proof.
  induction 1 as [|[k y] r Hy Hr IH]; intros Hj.
  - split; [|reflexivity].
    apply reads_strong_reads, reads_punctuator. reflexivity.
  - simpl in Hj. apply andb_true_iff in Hj as [Hjy Hjr].
    destruct (IH Hjr) as [IHr Hd]. split; [|reflexivity].
    rewrite !flat_map_cons_app. cbv beta iota. rewrite <- !app_assoc.
    apply (reads_strong_app (t1 := js ",") (k1 := [TComma]));
      [apply reads_punctuator; reflexivity|].
    apply (reads_strong_app (k1 := [TString k])); [apply reads_encode_string|].
    apply (reads_strong_app (t1 := js ":") (k1 := [TColon]));
      [apply reads_punctuator; reflexivity|].
    now apply reads_app; [apply Hy| |].
Qed.

Lemma encode_array_cons (x : jsval) (r : list jsval) :
  encode (JArr (x :: r))
  = js "[" ++ encode x ++ flat_map (fun y => js "," ++ encode y) r ++ js "]".
Proof.
  transitivity (js "[" ++ (encode x ++ flat_map (fun y => js "," ++ encode y) r)
                ++ js "]"); [reflexivity|now rewrite <- !app_assoc].
Qed.

Lemma tokens_array_cons (x : jsval) (r : list jsval) :
  tokens (JArr (x :: r))
  = [TLBracket] ++ tokens x ++ flat_map (fun y => TComma :: tokens y) r
    ++ [TRBracket].
Proof.
  transitivity ([TLBracket] ++ (tokens x ++ flat_map (fun y => TComma :: tokens y) r)
                ++ [TRBracket]); [reflexivity|now rewrite <- !app_assoc].
Qed.

Lemma encode_object_cons (k : jsstring) (x : jsval) (r : list (jsstring * jsval)) :
  encode (JObj ((k, x) :: r))
  = js "{" ++ encode_string k ++ js ":" ++ encode x
    ++ flat_map (fun m => match m with
                          | (k', y) =>
                              js "," ++ encode_string k' ++ js ":" ++ encode y
                          end) r
    ++ js "}".
Proof.
  transitivity
    (js "{"
     ++ ((encode_string k ++ js ":" ++ encode x)
         ++ flat_map (fun m => match m with
                               | (k', y) =>
                                   js "," ++ encode_string k' ++ js ":" ++ encode y
                               end) r)
     ++ js "}"); [reflexivity|now rewrite <- !app_assoc].
Qed.

Lemma tokens_object_cons (k : jsstring) (x : jsval) (r : list (jsstring * jsval)) :
  tokens (JObj ((k, x) :: r))
  = [TLBrace] ++ [TString k] ++ [TColon] ++ tokens x
    ++ flat_map (fun m => match m with
                          | (k', y) => TComma :: TString k' :: TColon :: tokens y
                          end) r
    ++ [TRBrace].
Proof.
  transitivity
    ([TLBrace]
     ++ ((TString k :: TColon :: tokens x)
         ++ flat_map (fun m => match m with
                               | (k', y) =>
                                   TComma :: TString k' :: TColon :: tokens y
                               end) r)
     ++ [TRBrace]); [reflexivity|].
  now rewrite <- !app_assoc.
Qed.

Lemma reads_encode (v : jsval) : is_json v = true -> reads (encode v) (tokens v).
Proof.
  induction v as [| |b|l|s|vs IH|ms IH] using jsval_nested_ind; intros Hj.
  - discriminate.
  - intros acc rest Hrest. now apply lex_word.
  - intros acc rest Hrest. destruct b; now apply lex_word.
  - intros acc rest Hrest. now apply lex_number.
  - apply reads_strong_reads, reads_encode_string.
  - destruct vs as [|x r].
    + apply (reads_strong_app (t1 := js "[") (k1 := [TLBracket]));
        [apply reads_punctuator; reflexivity|].
      apply reads_strong_reads, reads_punctuator. reflexivity.
    + simpl in Hj. apply andb_true_iff in Hj as [Hjx Hjr].
      inversion IH as [|? ? Hx Hr]; subst.
      destruct (reads_array_tail Hr Hjr) as [Ht Hd].
      rewrite encode_array_cons, tokens_array_cons.
      apply reads_strong_app; [apply reads_punctuator; reflexivity|].
      now apply reads_app; [apply Hx| |].
  - destruct ms as [|[k x] r].
    + apply (reads_strong_app (t1 := js "{") (k1 := [TLBrace]));
        [apply reads_punctuator; reflexivity|].
      apply reads_strong_reads, reads_punctuator. reflexivity.
    + simpl in Hj. apply andb_true_iff in Hj as [Hjx Hjr].
      inversion IH as [|? ? Hx Hr]; subst. simpl in Hx.
      destruct (reads_object_tail Hr Hjr) as [Ht Hd].
      rewrite encode_object_cons, tokens_object_cons.
      apply reads_strong_app; [apply reads_punctuator; reflexivity|].
      apply reads_strong_app; [apply reads_encode_string|].
      apply reads_strong_app; [apply reads_punctuator; reflexivity|].
      now apply reads_app; [apply Hx| |].
Qed.

Lemma parses_array_tail (r : list jsval) :
  Forall (fun y => is_json y = true -> parses (tokens y) y) r ->
  forallb is_json r = true ->
  forall items stack ts,
    parse_tokens (PArrNext items stack)
      ((flat_map (fun y => TComma :: tokens y) r ++ [TRBracket]) ++ ts)
    = parse_tokens (complete (JArr (rev items ++ r)) stack) ts.
Proof.
  induction 1 as [|y r Hy Hr IH]; intros Hj items stack ts.
  - simpl. now rewrite app_nil_r.
  - simpl in Hj. apply andb_true_iff in Hj as [Hjy Hjr].
    rewrite flat_map_cons_app. simpl. rewrite <- app_assoc.
    rewrite (proj1 (Hy Hjy _ _)). simpl complete.
    rewrite (IH Hjr). simpl rev. now rewrite <- app_assoc.
Qed.

Lemma parses_object_tail (r : list (jsstring * jsval)) :
  Forall (fun m => is_json (snd m) = true -> parses (tokens (snd m)) (snd m)) r ->
  forallb (fun m => match m with (_, x) => is_json x end) r = true ->
  forall members stack ts,
    parse_tokens (PObjNext members stack)
      ((flat_map (fun m => match m with
                           | (k', y) => TComma :: TString k' :: TColon :: tokens y
                           end) r ++ [TRBrace]) ++ ts)
    = parse_tokens (complete (JObj (rev members ++ r)) stack) ts.
Proof.
  induction 1 as [|[k y] r Hy Hr IH]; intros Hj members stack ts.
  - simpl. now rewrite app_nil_r.
  - simpl in Hj. apply andb_true_iff in Hj as [Hjy Hjr].
    rewrite flat_map_cons_app. simpl. rewrite <- app_assoc.
    rewrite (proj1 (Hy Hjy _ _)). simpl complete.
    rewrite (IH Hjr). simpl rev. now rewrite <- app_assoc.
Qed.

Lemma parses_tokens (v : jsval) : is_json v = true -> parses (tokens v) v.
Proof.
  induction v as [| |b|l|s|vs IH|ms IH] using jsval_nested_ind; intros Hj.
  - discriminate.
  - intros stack ts. split; reflexivity.
  - intros stack ts. destruct b; split; reflexivity.
  - intros stack ts. split; reflexivity.
  - intros stack ts. split; reflexivity.
  - destruct vs as [|x r]; [intros stack ts; split; reflexivity|].
    simpl in Hj. apply andb_true_iff in Hj as [Hjx Hjr].
    inversion IH as [|? ? Hx Hr]; subst.
    assert (Hbody : forall stack ts,
               parse_tokens (PArrOpen stack)
                 ((tokens x ++ flat_map (fun y => TComma :: tokens y) r
                   ++ [TRBracket]) ++ ts)
               = parse_tokens (complete (JArr (x :: r)) stack) ts).
    { intros stack ts. rewrite <- app_assoc.
      rewrite (proj2 (Hx Hjx _ _)). simpl complete.
      now rewrite (parses_array_tail Hr Hjr). }
    intros stack ts. rewrite tokens_array_cons.
    split; simpl; apply Hbody.
  - destruct ms as [|[k x] r]; [intros stack ts; split; reflexivity|].
    simpl in Hj. apply andb_true_iff in Hj as [Hjx Hjr].
    inversion IH as [|? ? Hx Hr]; subst. simpl in Hx.
    assert (Hbody : forall stack ts,
               parse_tokens (PValue (FObj [] k :: stack))
                 ((tokens x
                   ++ flat_map (fun m => match m with
                                         | (k', y) =>
                                             TComma :: TString k' :: TColon :: tokens y
                                         end) r
                   ++ [TRBrace]) ++ ts)
               = parse_tokens (complete (JObj ((k, x) :: r)) stack) ts).
    { intros stack ts. rewrite <- app_assoc.
      rewrite (proj1 (Hx Hjx _ _)). simpl complete.
      now rewrite (parses_object_tail Hr Hjr). }
    intros stack ts. rewrite tokens_object_cons.
    split; simpl; apply Hbody.
Qed.

(** Every JSON value is read back from its text. *)
Lemma JSON_parse_encode (v : jsval) :
  is_json v = true -> JSON_parse (encode v) = Some v.
Proof.
  intros Hj. unfold JSON_parse.
  pose proof (reads_encode v Hj [] [] I) as Hl.
  rewrite !app_nil_r in Hl. rewrite Hl. simpl lex. unfold lex_end.
  rewrite rev_involutive.
  pose proof (proj1 (parses_tokens v Hj [] [])) as Hp.
  rewrite app_nil_r in Hp. now rewrite Hp.
Qed.

Lemma encode_nonempty (v : jsval) : is_json v = true -> nonempty (encode v) = true.
Proof.
  destruct v as [| |[|]|l|s|vs|ms]; try reflexivity; try discriminate.
  simpl. destruct l; [discriminate|reflexivity].
Qed.

(** [JSON.parse] never yields [undefined]. *)
Lemma parse_tokens_defined (ts : list token) :
  forall st v,
    match st with PDone w => w <> JUndefined | _ => True end ->
    parse_tokens st ts = Some v -> v <> JUndefined.
Proof.
  induction ts as [|tk ts IH]; intros st v Hst H.
  - destruct st; try discriminate. inversion H; now subst.
  - simpl in H. destruct (parse_step st tk) as [st'|] eqn:Hs; [|discriminate].
    apply (IH st' v); [|assumption].
    assert (Hc : forall w stack, w <> JUndefined ->
                   match complete w stack with
                   | PDone w' => w' <> JUndefined
                   | _ => True
                   end).
    { intros w [|[items|members key] stack] Hw; simpl; auto. }
    destruct st as [stack|stack|items stack|stack|members stack
                   |members key stack|members stack|w];
      destruct tk; simpl in Hs; inversion Hs; subst;
      try exact I; try (apply Hc; discriminate).
Qed.

Lemma JSON_parse_defined (text : jsstring) (v : jsval) :
  JSON_parse text = Some v -> v <> JUndefined.
Proof.
  unfold JSON_parse. destruct (lex LIdle [] text) as [ts|]; [|discriminate].
  now apply parse_tokens_defined.
Qed.

Lemma JSON_parse_empty : JSON_parse [] = None.
Proof. reflexivity. Qed.

Lemma get_field (E : engine) (v : jsval) (k : jsstring) :
  v <> JNull -> v <> JUndefined -> get E v k = Returns (field k v).
Proof. destruct v; simpl; congruence. Qed.

(** The [try] block of [generateRoadmap] on a text that decodes. *)
Lemma roadmap_try_decoded
    (E : engine) (gemini : trace -> GenerativeModel -> request -> reply)
    (full text : jsstring) (t : trace) (v : jsval) :
  gemini t chatModel (roadmap_request full) = Responds (Some text) ->
  JSON_parse text = Some v ->
  fst (roadmap_try E gemini full t)
  = match v with
    | JNull =>
        Throws (TypeError_ (null_read_message E JNull (js "roadmap")))
    | _ =>
        Returns
          {| roadmap := field (js "roadmap") v;
             shouldTriggerCalendar := field (js "triggerCalendar") v;
             calendarIntentReason :=
               Some (nullish_coalesce (field (js "calendarIntentReason") v)
                       JUndefined) |}
    end.
Proof.
  intros Hg Hp. pose proof (JSON_parse_defined _ Hp) as Hd.
  unfold roadmap_try, bind, generateContent. rewrite Hg.
  destruct text as [|c text]; [now rewrite JSON_parse_empty in Hp|].
  simpl negb. cbv iota. unfold lift, JSON_parse_or_throw. rewrite Hp.
  destruct v; try reflexivity. congruence.
Qed.

(** ** The strict path *)

(** C5, as the code has it.  When the text of the roadmap call decodes to
    anything but [null], the run returns the decoded value's [roadmap] and
    [triggerCalendar] as they are and its [calendarIntentReason] with [null]
    and [undefined] both read as [undefined]; the handler is never entered: the
    trace gains the request and no log line. *)
Theorem strict_decode_is_returned
    (E : engine) (gemini : trace -> GenerativeModel -> request -> reply)
    (buildRoadmapPrompt : jsval -> jsval -> jsval -> jsstring)
    (userMessage : jsstring) (t t1 : trace) (pg : PreprocessedGoal)
    (text : jsstring) (v : jsval) :
  preprocess E gemini userMessage t = (Returns pg, t1) ->
  gemini t1 chatModel
    (roadmap_request
       (fullPrompt userMessage
          (buildRoadmapPrompt (goal pg) (known pg) (experienceLevel pg))))
  = Responds (Some text) ->
  JSON_parse text = Some v ->
  v <> JNull ->
  generateRoadmap E gemini buildRoadmapPrompt userMessage t
  = (Returns
       {| roadmap := field (js "roadmap") v;
          shouldTriggerCalendar := field (js "triggerCalendar") v;
          calendarIntentReason :=
            Some (match field (js "calendarIntentReason") v with
                  | JNull | JUndefined => JUndefined
                  | reason => reason
                  end) |},
     t1 ++ [Requested chatModel
              (roadmap_request
                 (fullPrompt userMessage
                    (buildRoadmapPrompt (goal pg) (known pg)
                       (experienceLevel pg))))]).
Proof.
  intros H1 Hg Hp Hv.
  pose proof (roadmap_try_decoded E gemini _ _ Hg Hp) as Hr.
  rewrite (generateRoadmap_returns _ _ buildRoadmapPrompt _ _ H1
             (r := {| roadmap := field (js "roadmap") v;
                      shouldTriggerCalendar := field (js "triggerCalendar") v;
                      calendarIntentReason :=
                        Some (nullish_coalesce
                                (field (js "calendarIntentReason") v) JUndefined) |})).
  - unfold nullish_coalesce.
    now destruct (field (js "calendarIntentReason") v).
  - rewrite Hr. destruct v; try reflexivity. congruence.
Qed.

Lemma strict_decode_is_returned_witness :
  exists pg t1,
    preprocess sample_engine
      (scripted [Responds (Some sample_goal_text);
                 Responds (Some (encode (roadmap_with_resources 3)))])
      (js "Teach me TypeScript") [] = (Returns pg, t1)
    /\ scripted [Responds (Some sample_goal_text);
                 Responds (Some (encode (roadmap_with_resources 3)))] t1
         chatModel
         (roadmap_request
            (fullPrompt (js "Teach me TypeScript")
               (sample_buildRoadmapPrompt (goal pg) (known pg)
                  (experienceLevel pg))))
       = Responds (Some (encode (roadmap_with_resources 3)))
    /\ JSON_parse (encode (roadmap_with_resources 3))
       = Some (roadmap_with_resources 3)
    /\ roadmap_with_resources 3 <> JNull
    /\ fst (generateRoadmap sample_engine
              (scripted [Responds (Some sample_goal_text);
                         Responds (Some (encode (roadmap_with_resources 3)))])
              sample_buildRoadmapPrompt (js "Teach me TypeScript") [])
       = Returns
           {| roadmap := field (js "roadmap") (roadmap_with_resources 3);
              shouldTriggerCalendar := JBool false;
              calendarIntentReason := Some JUndefined |}.
Proof.
  do 2 eexists. split; [reflexivity|]. split; [reflexivity|].
  split; [reflexivity|]. split; [discriminate|].
  eapply eq_trans;
    [apply (f_equal fst); eapply strict_decode_is_returned;
       [reflexivity|reflexivity|reflexivity|discriminate]
    |reflexivity].
Defined.

(** The text [null] decodes, and the run still fails: reading [roadmap] of
    [null] throws inside the [try] block. *)
Lemma strict_decode_of_null_throws :
  JSON_parse (js "null") = Some JNull
  /\ fst (generateRoadmap sample_engine
            (scripted [Responds (Some sample_goal_text);
                       Responds (Some (js "null"))])
            sample_buildRoadmapPrompt (js "Teach me TypeScript") [])
     = Throws (Error_ (js "Failed to generate or parse roadmap: Cannot read properties of null (reading 'roadmap')")).
Proof. split; reflexivity. Qed.

(** ** The fallback *)

(** C1 at the prose-wrapped text.  The text fails the strict decode, the
    bracket pattern finds the stage list in it and the stage list decodes;
    the fallback block would return it, with [shouldTriggerCalendar] false and
    no [calendarIntentReason], in any scope that binds [text].  In the scope
    the handler has, the run throws the wrapped decode error instead. *)
Theorem prose_wrapped_array_is_not_recovered :
  JSON_parse sample_prose_wrapped = None
  /\ match_bracketed sample_prose_wrapped = Some sample_stage_list
  /\ JSON_parse sample_stage_list = Some (JArr [JObj [(js "id", JStr (js "s1"))]])
  /\ (forall sc,
        fallback sample_engine
          ((js "text", BVal (JStr sample_prose_wrapped)) :: sc)
        = Returns (Some {| roadmap := JArr [JObj [(js "id", JStr (js "s1"))]];
                           shouldTriggerCalendar := JBool false;
                           calendarIntentReason := None |}))
  /\ fst (generateRoadmap sample_engine
            (scripted [Responds (Some sample_goal_text);
                       Responds (Some sample_prose_wrapped)])
            sample_buildRoadmapPrompt (js "Teach me TypeScript") [])
     = Throws (Error_ (js "Failed to generate or parse roadmap: Unexpected token 'H', "
                       ++ dq ++ js "Here is yo" ++ dq
                       ++ js "... is not valid JSON")).
Proof. repeat split; reflexivity. Qed.

(** C4.  A text of the roadmap call that is not empty, does not decode
    and holds no bracketed array makes the run throw one [Error], which has
    no [response] and whose message is the fixed prefix followed by the
    message of the decoder's SyntaxError.  The handler logs that message,
    and as raw output it logs [undefined]: it looks for the raw output in
    [err.response], which a SyntaxError does not have.  The text itself is
    put nowhere; the failure holds of it what the engine's message does. *)
Theorem unparsable_response_fails
    (E : engine) (gemini : trace -> GenerativeModel -> request -> reply)
    (buildRoadmapPrompt : jsval -> jsval -> jsval -> jsstring)
    (userMessage : jsstring) (t t1 : trace) (pg : PreprocessedGoal)
    (text : jsstring) :
  preprocess E gemini userMessage t = (Returns pg, t1) ->
  gemini t1 chatModel
    (roadmap_request
       (fullPrompt userMessage
          (buildRoadmapPrompt (goal pg) (known pg) (experienceLevel pg))))
  = Responds (Some text) ->
  text <> [] ->
  JSON_parse text = None ->
  match_bracketed text = None ->
  generateRoadmap E gemini buildRoadmapPrompt userMessage t
  = (Throws {| err_name := js "Error";
               err_message := js "Failed to generate or parse roadmap: "
                              ++ syntax_error_message E text;
               err_response := None |},
     (t1 ++ [Requested chatModel
               (roadmap_request
                  (fullPrompt userMessage
                     (buildRoadmapPrompt (goal pg) (known pg)
                        (experienceLevel pg))))])
     ++ [ConsoleError (js "Gemini generation failed:")
           (JStr (syntax_error_message E text));
         ConsoleError (js "Raw output (if any):") JUndefined]).
Proof.
  intros H1 Hg Hne Hp _.
  assert (Hf : stage_fails E (Responds (Some text)) (SyntaxError_ E text))
    by now constructor.
  rewrite <- Hg in Hf. apply roadmap_try_fails in Hf.
  now rewrite (generateRoadmap_throws _ _ buildRoadmapPrompt _ _ H1 Hf).
Qed.

Lemma unparsable_response_fails_witness :
  exists pg t1,
    preprocess sample_engine
      (scripted [Responds (Some sample_goal_text);
                 Responds (Some sample_refusal)])
      (js "Teach me TypeScript") [] = (Returns pg, t1)
    /\ scripted [Responds (Some sample_goal_text);
                 Responds (Some sample_refusal)] t1
         chatModel
         (roadmap_request
            (fullPrompt (js "Teach me TypeScript")
               (sample_buildRoadmapPrompt (goal pg) (known pg)
                  (experienceLevel pg))))
       = Responds (Some sample_refusal)
    /\ sample_refusal <> []
    /\ JSON_parse sample_refusal = None
    /\ match_bracketed sample_refusal = None
    /\ fst (generateRoadmap sample_engine
              (scripted [Responds (Some sample_goal_text);
                         Responds (Some sample_refusal)])
              sample_buildRoadmapPrompt (js "Teach me TypeScript") [])
       = Throws (Error_ (js "Failed to generate or parse roadmap: Unexpected token 'I', "
                         ++ dq ++ js "I could no" ++ dq
                         ++ js "... is not valid JSON"))
    /\ log_arguments
         (snd (generateRoadmap sample_engine
                 (scripted [Responds (Some sample_goal_text);
                            Responds (Some sample_refusal)])
                 sample_buildRoadmapPrompt (js "Teach me TypeScript") []))
       = [JStr (js "Unexpected token 'I', " ++ dq ++ js "I could no" ++ dq
                ++ js "... is not valid JSON");
          JUndefined].
Proof.
  do 2 eexists. split; [reflexivity|]. split; [reflexivity|].
  split; [discriminate|]. split; [reflexivity|]. split; [reflexivity|].
  split.
  - eapply eq_trans;
      [apply (f_equal fst); eapply unparsable_response_fails;
         [reflexivity|reflexivity|discriminate|reflexivity|reflexivity]
      |reflexivity].
  - eapply eq_trans;
      [apply (f_equal log_arguments); apply (f_equal snd);
       eapply unparsable_response_fails;
         [reflexivity|reflexivity|discriminate|reflexivity|reflexivity]
      |reflexivity].
Defined.

(** ** The goal descriptor on the wire *)

Lemma lookup_last_app (k : jsstring) (a b : list (jsstring * jsval)) :
  lookup_last k (a ++ b)
  = match lookup_last k b with
    | Some v => Some v
    | None => lookup_last k a
    end.
Proof.
  induction a as [|[k' v] a IH]; simpl.
  - now destruct (lookup_last k b).
  - rewrite IH. now destruct (lookup_last k b).
Qed.

Lemma lookup_wire_optional {A : Type} (k k' : jsstring) (st : absent_style)
    (f : A -> jsval) (o : option A) :
  lookup_last k (wire_optional k' st f o)
  = if jsstring_eqb k' k
    then match o, st with
         | Some a, _ => Some (f a)
         | None, Omit => None
         | None, Null => Some JNull
         end
    else None.
Proof. destruct o, st; simpl; now destruct (jsstring_eqb k' k). Qed.

Lemma lookup_wire_known (k : jsstring) (b : bool) (l : list jsstring) :
  lookup_last k (wire_known b l)
  = if jsstring_eqb (js "known") k
    then match l, b with
         | [], true => None
         | _, _ => Some (strings l)
         end
    else None.
Proof.
  unfold wire_known. generalize (js "known"). intros kn.
  destruct l, b; simpl; now destruct (jsstring_eqb kn k).
Qed.

Ltac decide_keys :=
  repeat match goal with
    | |- context [jsstring_eqb (js ?a) (js ?b)] =>
        let r := eval vm_compute in (jsstring_eqb (js a) (js b)) in
        change (jsstring_eqb (js a) (js b)) with r
    end;
  cbv iota.

Ltac lookup_wire :=
  unfold wire_members;
  rewrite !lookup_last_app, !lookup_wire_optional, lookup_wire_known;
  simpl lookup_last; decide_keys.

(** What each property of the wire object reads as. *)
Lemma wire_goal (st : wire_style) (d : GoalDescriptor) :
  lookup_last (js "goal") (wire_members st d) = Some (JStr (gd_goal d)).
Proof. lookup_wire. reflexivity. Qed.

Lemma wire_known_read (st : wire_style) (d : GoalDescriptor) :
  lookup_last (js "known") (wire_members st d)
  = match gd_known d, ws_omit_empty_known st with
    | [], true => None
    | l, _ => Some (strings l)
    end.
Proof.
  lookup_wire. now destruct (gd_known d), (ws_omit_empty_known st).
Qed.

Lemma wire_experienceLevel (st : wire_style) (d : GoalDescriptor) :
  lookup_last (js "experienceLevel") (wire_members st d)
  = match gd_experienceLevel d, ws_experienceLevel st with
    | Some l, _ => Some (JStr (level_name l))
    | None, Omit => None
    | None, Null => Some JNull
    end.
Proof.
  lookup_wire. now destruct (gd_experienceLevel d), (ws_experienceLevel st).
Qed.

Lemma wire_formatPreference (st : wire_style) (d : GoalDescriptor) :
  lookup_last (js "formatPreference") (wire_members st d)
  = match gd_formatPreference d, ws_formatPreference st with
    | Some f, _ => Some (JStr (format_name f))
    | None, Omit => None
    | None, Null => Some JNull
    end.
Proof.
  lookup_wire. now destruct (gd_formatPreference d), (ws_formatPreference st).
Qed.

Lemma wire_timeframe (st : wire_style) (d : GoalDescriptor) :
  lookup_last (js "timeframe") (wire_members st d)
  = match gd_timeframe d, ws_timeframe st with
    | Some s, _ => Some (JStr s)
    | None, Omit => None
    | None, Null => Some JNull
    end.
Proof.
  lookup_wire. now destruct (gd_timeframe d), (ws_timeframe st).
Qed.

Lemma wire_specificFocus (st : wire_style) (d : GoalDescriptor) :
  lookup_last (js "specificFocus") (wire_members st d)
  = match gd_specificFocus d, ws_specificFocus st with
    | Some l, _ => Some (strings l)
    | None, Omit => None
    | None, Null => Some JNull
    end.
Proof.
  lookup_wire. now destruct (gd_specificFocus d), (ws_specificFocus st).
Qed.

Lemma forallb_app_true {A : Type} (f : A -> bool) (a b : list A) :
  forallb f a = true -> forallb f b = true -> forallb f (a ++ b) = true.
Proof. intros Ha Hb. rewrite forallb_app. now rewrite Ha, Hb. Qed.

Lemma is_json_strings (l : list jsstring) : is_json (strings l) = true.
Proof. unfold strings. simpl. induction l; simpl; auto. Qed.

Lemma is_json_wire_optional {A : Type} (k : jsstring) (st : absent_style)
    (f : A -> jsval) (o : option A) :
  (forall a, is_json (f a) = true) ->
  forallb (fun m => match m with (_, x) => is_json x end)
    (wire_optional k st f o) = true.
Proof. intros Hf. destruct o, st; simpl; rewrite ?Hf; reflexivity. Qed.

Lemma is_json_wire_value (st : wire_style) (d : GoalDescriptor) :
  is_json (wire_value st d) = true.
Proof.
  unfold wire_value, wire_members.
  change (forallb (fun m => match m with (_, x) => is_json x end)
            ([(js "goal", JStr (gd_goal d))]
             ++ wire_known (ws_omit_empty_known st) (gd_known d)
             ++ wire_optional (js "experienceLevel") (ws_experienceLevel st)
                  (fun l => JStr (level_name l)) (gd_experienceLevel d)
             ++ wire_optional (js "formatPreference") (ws_formatPreference st)
                  (fun f => JStr (format_name f)) (gd_formatPreference d)
             ++ wire_optional (js "timeframe") (ws_timeframe st) JStr
                  (gd_timeframe d)
             ++ wire_optional (js "specificFocus") (ws_specificFocus st) strings
                  (gd_specificFocus d)) = true).
  repeat apply forallb_app_true;
    try (apply is_json_wire_optional; intros;
         first [reflexivity|apply is_json_strings]).
  - reflexivity.
  - destruct (gd_known d) as [|j l], (ws_omit_empty_known st); simpl;
      rewrite ?andb_true_r; try reflexivity;
      apply (is_json_strings (j :: l)).
Qed.

(** The wire form has the shape the goal schema declares, as long as
    [known], which the schema requires, is written. *)
Lemma conforms_object (props : list (jsstring * schema)) (req : list jsstring)
    (ms : list (jsstring * jsval)) :
  conforms (sch_object props req) (JObj ms)
  = forallb (has_key ms) req
    && forallb (fun p => match lookup_last (fst p) ms with
                         | Some vk => conforms (snd p) vk
                         | None => true
                         end) props.
Proof.
  unfold sch_object. simpl. f_equal.
  induction props as [|[k sk] ps IH]; simpl; [reflexivity|now rewrite IH].
Qed.

Lemma conforms_strings (l : list jsstring) (nullable : list json_type) :
  conforms (Schema (TyArray :: nullable) [] [] (Some sch_string) None)
    (strings l) = true.
Proof. unfold strings. simpl. induction l; simpl; auto. Qed.

Lemma wire_value_conforms (st : wire_style) (d : GoalDescriptor) :
  ws_omit_empty_known st = false \/ gd_known d <> [] ->
  conforms goal_schema (wire_value st d) = true.
Proof.
  intros Hk. unfold goal_schema, wire_value. rewrite conforms_object.
  cbn [forallb fst snd]. unfold has_key.
  rewrite wire_goal, wire_known_read, wire_experienceLevel,
    wire_formatPreference, wire_timeframe, wire_specificFocus.
  repeat (apply andb_true_intro; split); try reflexivity.
  - destruct (gd_known d), (ws_omit_empty_known st); try reflexivity.
    destruct Hk; congruence.
  - destruct (gd_known d), (ws_omit_empty_known st); try reflexivity;
      apply (conforms_strings _ []).
  - destruct (gd_experienceLevel d) as [[| |]|], (ws_experienceLevel st);
      reflexivity.
  - destruct (gd_formatPreference d) as [[| | |]|], (ws_formatPreference st);
      reflexivity.
  - destruct (gd_timeframe d), (ws_timeframe st); reflexivity.
  - destruct (gd_specificFocus d), (ws_specificFocus st); try reflexivity;
      apply (conforms_strings _ [TyNull]).
Qed.

(** C6. Whatever goal descriptor the service sends, and however it writes
    the fields that have no value (left out or [null], an empty [known] left
    out or not), [preprocess] returns that descriptor: every field with a
    value as it was sent, every optional field without one as [undefined],
    and [known] as the empty array when it was left out. *)
Theorem goal_descriptor_round_trip
    (E : engine) (gemini : trace -> GenerativeModel -> request -> reply)
    (message : jsstring) (t : trace) (d : GoalDescriptor) (st : wire_style) :
  gemini t goalModel (goal_request message)
  = Responds (Some (encode_goal st d)) ->
  (ws_omit_empty_known st = false \/ gd_known d <> [] ->
   conforms goal_schema (wire_value st d) = true)
  /\ JSON_parse (encode_goal st d) = Some (wire_value st d)
  /\ preprocess E gemini message t
     = (Returns (descriptor_value d),
        t ++ [Requested goalModel (goal_request message)]).
Proof.
  intros Hg.
  assert (Hp : JSON_parse (encode_goal st d) = Some (wire_value st d))
    by apply JSON_parse_encode, is_json_wire_value.
  split; [apply wire_value_conforms|]. split; [exact Hp|].
  apply preprocess_returns.
  unfold preprocess_try, bind, generateContent. rewrite Hg. cbv iota beta.
  unfold encode_goal at 1.
  rewrite (encode_nonempty _ (is_json_wire_value st d)).
  change (negb true) with false. cbv iota.
  unfold lift at 1, JSON_parse_or_throw. rewrite Hp. cbv iota beta.
  unfold wire_value, lift, get, ret. cbv iota beta.
  rewrite wire_goal, wire_known_read, wire_experienceLevel,
    wire_formatPreference, wire_timeframe, wire_specificFocus.
  unfold descriptor_value. cbv beta iota delta [fst]. do 2 f_equal.
  - now destruct (gd_known d), (ws_omit_empty_known st).
  - now destruct (gd_experienceLevel d), (ws_experienceLevel st).
  - now destruct (gd_formatPreference d), (ws_formatPreference st).
  - now destruct (gd_timeframe d), (ws_timeframe st).
  - now destruct (gd_specificFocus d), (ws_specificFocus st).
Qed.

Lemma goal_descriptor_round_trip_witness :
  scripted [Responds (Some (encode_goal sample_style sample_descriptor))] []
    goalModel (goal_request (js "Teach me TypeScript"))
  = Responds (Some (encode_goal sample_style sample_descriptor))
  /\ conforms goal_schema (wire_value sample_style sample_descriptor) = true
  /\ JSON_parse (encode_goal sample_style sample_descriptor)
     = Some (wire_value sample_style sample_descriptor)
  /\ preprocess sample_engine
       (scripted [Responds (Some (encode_goal sample_style sample_descriptor))])
       (js "Teach me TypeScript") []
     = (Returns (descriptor_value sample_descriptor),
        [] ++ [Requested goalModel (goal_request (js "Teach me TypeScript"))]).
Proof.
  split; [reflexivity|].
  destruct (@goal_descriptor_round_trip sample_engine
              (scripted [Responds (Some (encode_goal sample_style sample_descriptor))])
              (js "Teach me TypeScript") [] sample_descriptor sample_style
              eq_refl) as (Hschema & Hparse & Hrun).
  split; [apply Hschema; right; discriminate|]. split; assumption.
Defined.

(** ** Resources per node *)

Lemma is_json_roadmap_with_resources (n : nat) :
  is_json (roadmap_with_resources n) = true.
Proof.
  unfold roadmap_with_resources, sample_node. simpl.
  rewrite !andb_true_r. induction n; simpl; auto.
Qed.

Lemma forallb_repeat {A : Type} (f : A -> bool) (x : A) (n : nat) :
  f x = true -> forallb f (repeat x n) = true.
Proof. intros H. induction n; simpl; [reflexivity|now rewrite H]. Qed.

Lemma conforms_roadmap_with_resources (n : nat) :
  conforms roadmap_schema (roadmap_with_resources n) = true.
Proof.
  pose proof (forallb_repeat (conforms resource_schema) sample_resource n
                eq_refl) as H.
  unfold roadmap_with_resources, sample_node.
  generalize dependent (repeat sample_resource n). intros rs H.
  unfold roadmap_schema, stage_schema, node_schema, sch_object, sch_array.
  simpl in *. rewrite H. reflexivity.
Qed.

(** C7, as the code has it.  The prompt asks for exactly 3 resources per
    node, and that is all.  Whatever the text of the roadmap call decodes
    to, short of [null], the run returns its [roadmap] as it was decoded: the
    nodes of the returned roadmap are the nodes of the decoded value, each
    with the resources it was sent with, however many.  And for every [n]
    there is a response that satisfies the response schema, decodes, and
    whose node has [n] resources. *)
Theorem resource_count_is_only_requested
    (E : engine) (gemini : trace -> GenerativeModel -> request -> reply)
    (buildRoadmapPrompt : jsval -> jsval -> jsval -> jsstring)
    (userMessage : jsstring) (t t1 : trace) (pg : PreprocessedGoal)
    (text : jsstring) (v : jsval) :
  preprocess E gemini userMessage t = (Returns pg, t1) ->
  gemini t1 chatModel
    (roadmap_request
       (fullPrompt userMessage
          (buildRoadmapPrompt (goal pg) (known pg) (experienceLevel pg))))
  = Responds (Some text) ->
  JSON_parse text = Some v ->
  v <> JNull ->
  occurs (js "- Exactly 3 high-quality resources per node")
    (trimEnd roadmap_template_tail) = true
  /\ (exists r,
        fst (generateRoadmap E gemini buildRoadmapPrompt userMessage t)
        = Returns r
        /\ roadmap r = field (js "roadmap") v
        /\ roadmap_nodes (roadmap r) = roadmap_nodes (field (js "roadmap") v)
        /\ map (field (js "resources")) (roadmap_nodes (roadmap r))
           = map (field (js "resources"))
               (roadmap_nodes (field (js "roadmap") v))
        /\ map resources_length (roadmap_nodes (roadmap r))
           = map resources_length (roadmap_nodes (field (js "roadmap") v)))
  /\ forall n,
       conforms roadmap_schema (roadmap_with_resources n) = true
       /\ JSON_parse (encode (roadmap_with_resources n))
          = Some (roadmap_with_resources n)
       /\ roadmap_with_resources n <> JNull
       /\ map resources_length
            (roadmap_nodes (field (js "roadmap") (roadmap_with_resources n)))
          = [n].
Proof.
  intros H1 Hg Hp Hv. split; [vm_compute; reflexivity|]. split.
  - pose proof (roadmap_try_decoded E gemini _ _ Hg Hp) as Hr.
    assert (Hr' : fst (roadmap_try E gemini
                         (fullPrompt userMessage
                            (buildRoadmapPrompt (goal pg) (known pg)
                               (experienceLevel pg))) t1)
                  = Returns
                      {| roadmap := field (js "roadmap") v;
                         shouldTriggerCalendar := field (js "triggerCalendar") v;
                         calendarIntentReason :=
                           Some (nullish_coalesce
                                   (field (js "calendarIntentReason") v)
                                   JUndefined) |})
      by (rewrite Hr; destruct v; try reflexivity; congruence).
    eexists. split.
    + now rewrite (generateRoadmap_returns _ _ buildRoadmapPrompt _ _ H1 Hr').
    + repeat split; reflexivity.
  - intros n. split; [apply conforms_roadmap_with_resources|].
    split; [apply JSON_parse_encode, is_json_roadmap_with_resources|].
    split; [discriminate|].
    change (roadmap_nodes (field (js "roadmap") (roadmap_with_resources n)))
      with [sample_node n].
    unfold resources_length, sample_node. simpl. now rewrite repeat_length.
Qed.

Lemma resource_count_is_only_requested_witness :
  exists pg t1,
    preprocess sample_engine
      (scripted [Responds (Some sample_goal_text);
                 Responds (Some (encode (roadmap_with_resources 5)))])
      (js "Teach me TypeScript") [] = (Returns pg, t1)
    /\ scripted [Responds (Some sample_goal_text);
                 Responds (Some (encode (roadmap_with_resources 5)))] t1
         chatModel
         (roadmap_request
            (fullPrompt (js "Teach me TypeScript")
               (sample_buildRoadmapPrompt (goal pg) (known pg)
                  (experienceLevel pg))))
       = Responds (Some (encode (roadmap_with_resources 5)))
    /\ JSON_parse (encode (roadmap_with_resources 5))
       = Some (roadmap_with_resources 5)
    /\ roadmap_with_resources 5 <> JNull
    /\ exists r,
         fst (generateRoadmap sample_engine
                (scripted [Responds (Some sample_goal_text);
                           Responds (Some (encode (roadmap_with_resources 5)))])
                sample_buildRoadmapPrompt (js "Teach me TypeScript") [])
         = Returns r
         /\ roadmap_nodes (roadmap r) = [sample_node 5]
         /\ map resources_length (roadmap_nodes (roadmap r)) = [5%nat].
Proof.
  do 2 eexists. split; [reflexivity|]. split; [reflexivity|].
  split; [reflexivity|]. split; [discriminate|].
  edestruct (@resource_count_is_only_requested sample_engine
               (scripted [Responds (Some sample_goal_text);
                          Responds (Some (encode (roadmap_with_resources 5)))])
               sample_buildRoadmapPrompt (js "Teach me TypeScript") [])
    as (_ & (r & Hrun & _ & Hnodes & _ & Hlen) & _);
    [reflexivity|reflexivity|reflexivity|discriminate|].
  exists r. split; [exact Hrun|]. split; [exact Hnodes|exact Hlen].
Defined.

(** A response that satisfies the response schema and whose node has two
    resources is returned on the strict path, two resources and all. *)
Lemma node_with_two_resources_is_returned :
  conforms roadmap_schema (roadmap_with_resources 2) = true
  /\ exists r,
       fst (generateRoadmap sample_engine
              (scripted [Responds (Some sample_goal_text);
                         Responds (Some (encode (roadmap_with_resources 2)))])
              sample_buildRoadmapPrompt (js "Teach me TypeScript") [])
       = Returns r
       /\ exists node,
            In node (roadmap_nodes (roadmap r))
            /\ resources_length node = 2%nat
            /\ resources_length node <> 3%nat.
Proof.
  split; [reflexivity|]. eexists. split; [reflexivity|].
  exists (sample_node 2). split; [left; reflexivity|].
  split; [reflexivity|discriminate].
Qed.

(** * More on the two services *)

(** ** What a stage does with a decoded value *)

Lemma preprocess_try_decoded
    (E : engine) (gemini : trace -> GenerativeModel -> request -> reply)
    (message text : jsstring) (t : trace) (v : jsval) :
  gemini t goalModel (goal_request message) = Responds (Some text) ->
  JSON_parse text = Some v ->
  fst (preprocess_try E gemini message t)
  = match v with
    | JNull => Throws (TypeError_ (null_read_message E JNull (js "goal")))
    | _ =>
        Returns
          {| goal := field (js "goal") v;
             known := js_or E (field (js "known") v) (JArr []);
             experienceLevel :=
               nullish_coalesce (field (js "experienceLevel") v) JUndefined;
             formatPreference :=
               nullish_coalesce (field (js "formatPreference") v) JUndefined;
             timeframe := nullish_coalesce (field (js "timeframe") v) JUndefined;
             specificFocus :=
               nullish_coalesce (field (js "specificFocus") v) JUndefined |}
    end.
Proof.
  intros Hg Hp. pose proof (JSON_parse_defined _ Hp) as Hd.
  unfold preprocess_try, bind, generateContent. rewrite Hg.
  destruct text as [|c text]; [now rewrite JSON_parse_empty in Hp|].
  simpl negb. cbv iota. unfold lift, JSON_parse_or_throw. rewrite Hp.
  destruct v; try reflexivity. congruence.
Qed.

(** A [try] block returns only from a text that decodes to something other
    than [null]. *)
Lemma preprocess_try_returns_inv
    (E : engine) (gemini : trace -> GenerativeModel -> request -> reply)
    (message : jsstring) (t : trace) (pg : PreprocessedGoal) :
  fst (preprocess_try E gemini message t) = Returns pg ->
  exists text v,
    gemini t goalModel (goal_request message) = Responds (Some text)
    /\ JSON_parse text = Some v /\ v <> JNull.
Proof.
  intros H.
  destruct (gemini t goalModel (goal_request message)) as [e|[text|]] eqn:Hg.
  - rewrite (@preprocess_try_fails E gemini message t
                   (e)) in H;
      [discriminate|rewrite Hg; constructor].
  - destruct (JSON_parse text) as [v|] eqn:Hp.
    + exists text, v. split; [reflexivity|]. split; [exact Hp|].
      intros ->. rewrite (@preprocess_try_decoded E gemini _ _ _ _ Hg Hp) in H.
      discriminate.
    + destruct text as [|c text].
      * rewrite (@preprocess_try_fails E gemini message t
                   (Error_ (js "Empty response from Gemini"))) in H;
          [discriminate|rewrite Hg; constructor].
      * rewrite (@preprocess_try_fails E gemini message t
                   (SyntaxError_ E (c :: text))) in H;
          [discriminate|rewrite Hg; now constructor].
  - rewrite (@preprocess_try_fails E gemini message t
                   (Error_ (js "Empty response from Gemini"))) in H;
      [discriminate|rewrite Hg; constructor].
Qed.

Lemma roadmap_try_returns_inv
    (E : engine) (gemini : trace -> GenerativeModel -> request -> reply)
    (full : jsstring) (t : trace) (r : RoadmapResponse) :
  fst (roadmap_try E gemini full t) = Returns r ->
  exists text v,
    gemini t chatModel (roadmap_request full) = Responds (Some text)
    /\ JSON_parse text = Some v /\ v <> JNull.
Proof.
  intros H.
  destruct (gemini t chatModel (roadmap_request full)) as [e|[text|]] eqn:Hg.
  - rewrite (@roadmap_try_fails E gemini full t
                   (e)) in H;
      [discriminate|rewrite Hg; constructor].
  - destruct (JSON_parse text) as [v|] eqn:Hp.
    + exists text, v. split; [reflexivity|]. split; [exact Hp|].
      intros ->. rewrite (@roadmap_try_decoded E gemini _ _ _ _ Hg Hp) in H.
      discriminate.
    + destruct text as [|c text].
      * rewrite (@roadmap_try_fails E gemini full t
                   (Error_ (js "Empty response from Gemini"))) in H;
          [discriminate|rewrite Hg; constructor].
      * rewrite (@roadmap_try_fails E gemini full t
                   (SyntaxError_ E (c :: text))) in H;
          [discriminate|rewrite Hg; now constructor].
  - rewrite (@roadmap_try_fails E gemini full t
                   (Error_ (js "Empty response from Gemini"))) in H;
      [discriminate|rewrite Hg; constructor].
Qed.

(** The three ways a run can go. *)
Lemma generateRoadmap_cases
    (E : engine) (gemini : trace -> GenerativeModel -> request -> reply)
    (buildRoadmapPrompt : jsval -> jsval -> jsval -> jsstring)
    (userMessage : jsstring) (t : trace) :
  (exists e,
     fst (preprocess_try E gemini userMessage t) = Throws e
     /\ generateRoadmap E gemini buildRoadmapPrompt userMessage t
        = (Throws (rethrown (preprocess_failure e) e),
           (t ++ [Requested goalModel (goal_request userMessage)])
           ++ logged (js "Gemini preprocessing failed:") e))
  \/ (exists pg full,
        full = fullPrompt userMessage
                 (buildRoadmapPrompt (goal pg) (known pg) (experienceLevel pg))
        /\ preprocess E gemini userMessage t
           = (Returns pg, t ++ [Requested goalModel (goal_request userMessage)])
        /\ ((exists r,
               fst (roadmap_try E gemini full
                      (t ++ [Requested goalModel (goal_request userMessage)]))
               = Returns r
               /\ generateRoadmap E gemini buildRoadmapPrompt userMessage t
                  = (Returns r,
                     (t ++ [Requested goalModel (goal_request userMessage)])
                     ++ [Requested chatModel (roadmap_request full)]))
            \/ (exists e,
                  fst (roadmap_try E gemini full
                         (t ++ [Requested goalModel (goal_request userMessage)]))
                  = Throws e
                  /\ generateRoadmap E gemini buildRoadmapPrompt userMessage t
                     = (Throws (rethrown (roadmap_failure e) e),
                        ((t ++ [Requested goalModel (goal_request userMessage)])
                         ++ [Requested chatModel (roadmap_request full)])
                        ++ logged (js "Gemini generation failed:") e)))).
Proof.
  destruct (fst (preprocess_try E gemini userMessage t)) as [pg|e] eqn:H1.
  - right. exists pg. eexists. split; [reflexivity|].
    pose proof (preprocess_returns _ _ _ _ H1) as Hp. split; [exact Hp|].
    match goal with
    | |- context [roadmap_try E gemini ?f ?u] =>
        destruct (fst (roadmap_try E gemini f u)) as [r|err] eqn:H2
    end.
    + left. exists r. split; [reflexivity|].
      exact (generateRoadmap_returns _ _ buildRoadmapPrompt _ _ Hp H2).
    + right. exists err. split; [reflexivity|].
      exact (generateRoadmap_throws _ _ buildRoadmapPrompt _ _ Hp H2).
  - left. exists e. split; [reflexivity|].
    exact (generateRoadmap_goal_failed _ _ buildRoadmapPrompt _ _
             (preprocess_throws _ _ _ _ H1)).
Qed.

Lemma log_labels_app (t u : trace) : log_labels (t ++ u) = log_labels t ++ log_labels u.
Proof.
  induction t as [|[m r|l a] t IH]; simpl; [reflexivity|assumption|].
  now rewrite IH.
Qed.

(** What a handler throws is its own wrapped error or what the argument of
    its second log line threw. *)
Lemma rethrown_cases (wrapped err : js_error) :
  ((exists raw, raw_output err = Returns raw) /\ rethrown wrapped err = wrapped)
  \/ raw_output err = Throws (rethrown wrapped err).
Proof.
  unfold rethrown. destruct (raw_output err) as [raw|e];
    [left; split; [now exists raw|reflexivity]|now right].
Qed.

Lemma log_labels_logged (label : jsstring) (err : js_error) :
  log_labels (logged label err)
  = label :: match raw_output err with
             | Returns _ => [js "Raw output (if any):"]
             | Throws _ => []
             end.
Proof. unfold logged. now destruct (raw_output err). Qed.

(** ** What [generateRoadmap] throws and logs *)

(** X1. Whatever [generateRoadmap] throws comes out of one of the two
    handlers.  With [e0] what the [try] block of the failing stage threw, it
    is the [Error] of the handler's last line, which has no [response] and
    whose message is the prefix of that stage followed by the message of
    [e0], or it is what [e0.response.text()] threw while the handler was
    logging.  So a SyntaxError or TypeError of the decode, which has no
    [response], never reaches the caller as it is, and no failure is wrapped
    twice. *)
Theorem thrown_errors_come_from_a_handler
    (E : engine) (gemini : trace -> GenerativeModel -> request -> reply)
    (buildRoadmapPrompt : jsval -> jsval -> jsval -> jsstring)
    (userMessage : jsstring) (t : trace) (e : js_error) :
  fst (generateRoadmap E gemini buildRoadmapPrompt userMessage t) = Throws e ->
  (exists e0,
     fst (preprocess_try E gemini userMessage t) = Throws e0
     /\ (((exists raw, raw_output e0 = Returns raw)
          /\ e = Error_ (js "Failed to preprocess goal with Gemini: "
                         ++ err_message e0))
         \/ raw_output e0 = Throws e))
  \/ (exists pg t1 e0,
        preprocess E gemini userMessage t = (Returns pg, t1)
        /\ fst (roadmap_try E gemini
                  (fullPrompt userMessage
                     (buildRoadmapPrompt (goal pg) (known pg)
                        (experienceLevel pg))) t1)
           = Throws e0
        /\ (((exists raw, raw_output e0 = Returns raw)
             /\ e = Error_ (js "Failed to generate or parse roadmap: "
                            ++ err_message e0))
            \/ raw_output e0 = Throws e)).
Proof.
  intros H.
  destruct (generateRoadmap_cases E gemini buildRoadmapPrompt userMessage t)
    as [(e0 & H1 & Hrun)|(pg & full & -> & Hp & [(r & H2 & Hrun)|(e0 & H2 & Hrun)])];
    rewrite Hrun in H; simpl in H; inversion H; subst.
  - left. exists e0. split; [exact H1|].
    destruct (rethrown_cases (preprocess_failure e0) e0) as [[Hraw Hw]|Hraw];
      [left; split; [exact Hraw|exact Hw]|right; exact Hraw].
  - right. exists pg. eexists. exists e0.
    split; [exact Hp|]. split; [exact H2|].
    destruct (rethrown_cases (roadmap_failure e0) e0) as [[Hraw Hw]|Hraw];
      [left; split; [exact Hraw|exact Hw]|right; exact Hraw].
Qed.

Lemma thrown_errors_come_from_a_handler_witness :
  (exists e,
     fst (generateRoadmap sample_engine
            (scripted [Responds (Some sample_goal_text);
                       Fails (Error_ (js "503 Service Unavailable"))])
            sample_buildRoadmapPrompt (js "Teach me TypeScript") [])
     = Throws e
     /\ e = Error_ (js "Failed to generate or parse roadmap: 503 Service Unavailable"))
  /\ (fst (generateRoadmap sample_engine
             (scripted [Fails blocked_response_error])
             sample_buildRoadmapPrompt (js "Teach me TypeScript") [])
      = Throws blocked_response_error
      /\ raw_output blocked_response_error = Throws blocked_response_error).
Proof.
  split.
  - eexists. split; [reflexivity|].
    destruct (@thrown_errors_come_from_a_handler sample_engine
                (scripted [Responds (Some sample_goal_text);
                           Fails (Error_ (js "503 Service Unavailable"))])
                sample_buildRoadmapPrompt (js "Teach me TypeScript") [] _
                eq_refl)
      as [(e0 & H1 & _)|(pg & t1 & e0 & Hp & H2 & [[_ Hw]|Hraw])];
      [discriminate H1| |].
    + inversion Hp; subst. inversion H2; subst. reflexivity.
    + inversion Hp; subst. inversion H2; subst. discriminate Hraw.
  - split; [reflexivity|].
    destruct (@thrown_errors_come_from_a_handler sample_engine
                (scripted [Fails blocked_response_error])
                sample_buildRoadmapPrompt (js "Teach me TypeScript") [] _
                eq_refl)
      as [(e0 & H1 & [[[raw Hraw] _]|Hraw])|(pg & t1 & e0 & Hp & _)];
      [| |discriminate Hp].
    + inversion H1; subst. discriminate Hraw.
    + inversion H1; subst. exact Hraw.
Defined.

(** X2. A run only adds to the trace, and it logs only when it fails: a run
    that returns logs nothing; a run that throws logs the line of the stage
    whose [try] block threw, followed by the raw-output line unless the
    argument of that line threw, after one request when the goal stage
    failed and after two when the roadmap stage did.  The lines of both
    stages never appear in one run. *)
Theorem run_logs_only_its_failure
    (E : engine) (gemini : trace -> GenerativeModel -> request -> reply)
    (buildRoadmapPrompt : jsval -> jsval -> jsval -> jsstring)
    (userMessage : jsstring) (t : trace) :
  exists added,
    snd (generateRoadmap E gemini buildRoadmapPrompt userMessage t) = t ++ added
    /\ match fst (generateRoadmap E gemini buildRoadmapPrompt userMessage t) with
       | Returns _ =>
           log_labels added = [] /\ List.length (requests added) = 2%nat
       | Throws e =>
           exists stage e0,
             log_labels added
             = stage :: match raw_output e0 with
                        | Returns _ => [js "Raw output (if any):"]
                        | Throws _ => []
                        end
             /\ match raw_output e0 with
                | Returns _ => err_response e = None
                | Throws raised => e = raised
                end
             /\ ((stage = js "Gemini preprocessing failed:"
                  /\ fst (preprocess_try E gemini userMessage t) = Throws e0
                  /\ List.length (requests added) = 1%nat)
                 \/ (stage = js "Gemini generation failed:"
                     /\ (exists pg t1,
                           preprocess E gemini userMessage t = (Returns pg, t1)
                           /\ fst (roadmap_try E gemini
                                     (fullPrompt userMessage
                                        (buildRoadmapPrompt (goal pg) (known pg)
                                           (experienceLevel pg))) t1)
                              = Throws e0)
                     /\ List.length (requests added) = 2%nat))
       end.
Proof.
  destruct (generateRoadmap_cases E gemini buildRoadmapPrompt userMessage t)
    as [(e0 & H1 & Hrun)|(pg & full & -> & Hp & [(r & H2 & Hrun)|(e0 & H2 & Hrun)])];
    rewrite Hrun; cbv beta iota delta [fst snd]; rewrite <- ?app_assoc;
    eexists; (split; [reflexivity|]).
  - exists (js "Gemini preprocessing failed:"), e0.
    rewrite log_labels_app, log_labels_logged, requests_app, requests_logged.
    split; [reflexivity|].
    split; [|left; split; [reflexivity|split; [exact H1|reflexivity]]].
    unfold rethrown. now destruct (raw_output e0).
  - split; reflexivity.
  - exists (js "Gemini generation failed:"), e0.
    rewrite !log_labels_app, log_labels_logged, !requests_app, requests_logged.
    split; [reflexivity|].
    split; [|right; split; [reflexivity|split; [|reflexivity]]].
    + unfold rethrown. now destruct (raw_output e0).
    + exists pg. eexists. split; [exact Hp|exact H2].
Qed.

(** ** What the stages return *)

(** X3. Whatever [preprocess] returns is normalized: [known] is never
    undefined, null or any other falsy value, and none of the four optional
    fields is null. *)
Theorem preprocess_result_is_normalized
    (E : engine) (gemini : trace -> GenerativeModel -> request -> reply)
    (message : jsstring) (t t1 : trace) (pg : PreprocessedGoal) :
  preprocess E gemini message t = (Returns pg, t1) ->
  truthy E (known pg) = true
  /\ experienceLevel pg <> JNull
  /\ formatPreference pg <> JNull
  /\ timeframe pg <> JNull
  /\ specificFocus pg <> JNull.
Proof.
  intros H.
  destruct (fst (preprocess_try E gemini message t)) as [pg'|e] eqn:H1.
  - rewrite (preprocess_returns _ _ _ _ H1) in H. inversion H; subst pg' t1.
    destruct (preprocess_try_returns_inv _ _ _ _ H1) as (text & v & Hg & Hp & Hv).
    rewrite (@preprocess_try_decoded E gemini _ _ _ _ Hg Hp) in H1.
    assert (Hn : forall a, nullish_coalesce a JUndefined <> JNull)
      by (intros []; discriminate).
    assert (Hk : forall a, truthy E (js_or E a (JArr [])) = true)
      by (intros a; unfold js_or; destruct (truthy E a) eqn:Ha; [exact Ha|reflexivity]).
    pose proof (JSON_parse_defined _ Hp) as Hd.
    assert (Hpg : pg = {| goal := field (js "goal") v;
                          known := js_or E (field (js "known") v) (JArr []);
                          experienceLevel :=
                            nullish_coalesce (field (js "experienceLevel") v)
                              JUndefined;
                          formatPreference :=
                            nullish_coalesce (field (js "formatPreference") v)
                              JUndefined;
                          timeframe :=
                            nullish_coalesce (field (js "timeframe") v) JUndefined;
                          specificFocus :=
                            nullish_coalesce (field (js "specificFocus") v)
                              JUndefined |})
      by (destruct v; try congruence; now inversion H1).
    subst pg. cbn [known experienceLevel formatPreference timeframe specificFocus].
    repeat split; first [apply Hn|apply Hk].
  - rewrite (preprocess_throws _ _ _ _ H1) in H. discriminate.
Qed.

Lemma preprocess_result_is_normalized_witness :
  exists pg t1,
    preprocess sample_engine
      (scripted [Responds (Some (js "{" ++ q "goal" ++ js ":null,"
                                 ++ q "known" ++ js ":0,"
                                 ++ q "timeframe" ++ js ":null}"))])
      (js "Teach me TypeScript") [] = (Returns pg, t1)
    /\ known pg = JArr []
    /\ truthy sample_engine (known pg) = true
    /\ timeframe pg <> JNull.
Proof.
  do 2 eexists. split; [reflexivity|]. split; [reflexivity|].
  destruct (@preprocess_result_is_normalized sample_engine
              (scripted [Responds (Some (js "{" ++ q "goal" ++ js ":null,"
                                         ++ q "known" ++ js ":0,"
                                         ++ q "timeframe" ++ js ":null}"))])
              (js "Teach me TypeScript") [] _ _ eq_refl)
    as (Hk & _ & _ & Ht & _).
  split; assumption.
Defined.

(** X4. Whatever [generateRoadmap] returns is the strict decode of the text
    of the roadmap call: that text decoded to a value other than null and the
    response is read off that value.  In particular [calendarIntentReason] is
    always set, and never to null: no returned response has the shape of the
    fallback's. *)
Theorem returned_response_is_a_strict_decode
    (E : engine) (gemini : trace -> GenerativeModel -> request -> reply)
    (buildRoadmapPrompt : jsval -> jsval -> jsval -> jsstring)
    (userMessage : jsstring) (t : trace) (r : RoadmapResponse) :
  fst (generateRoadmap E gemini buildRoadmapPrompt userMessage t) = Returns r ->
  (exists pg t1 text v,
     preprocess E gemini userMessage t = (Returns pg, t1)
     /\ gemini t1 chatModel
          (roadmap_request
             (fullPrompt userMessage
                (buildRoadmapPrompt (goal pg) (known pg) (experienceLevel pg))))
        = Responds (Some text)
     /\ JSON_parse text = Some v
     /\ v <> JNull
     /\ r = {| roadmap := field (js "roadmap") v;
               shouldTriggerCalendar := field (js "triggerCalendar") v;
               calendarIntentReason :=
                 Some (nullish_coalesce (field (js "calendarIntentReason") v)
                         JUndefined) |})
  /\ calendarIntentReason r <> None
  /\ calendarIntentReason r <> Some JNull.
Proof.
  intros H.
  destruct (generateRoadmap_cases E gemini buildRoadmapPrompt userMessage t)
    as [(e0 & H1 & Hrun)|(pg & full & -> & Hp & [(r' & H2 & Hrun)|(e0 & H2 & Hrun)])];
    rewrite Hrun in H; simpl in H; inversion H; subst r'.
  destruct (roadmap_try_returns_inv _ _ _ _ H2) as (text & v & Hg & Hd & Hv).
  rewrite (@roadmap_try_decoded E gemini _ _ _ _ Hg Hd) in H2.
  pose proof (JSON_parse_defined _ Hd) as Hu.
  assert (Hr : r = {| roadmap := field (js "roadmap") v;
                      shouldTriggerCalendar := field (js "triggerCalendar") v;
                      calendarIntentReason :=
                        Some (nullish_coalesce
                                (field (js "calendarIntentReason") v) JUndefined) |})
    by (destruct v; try congruence; now inversion H2).
  split.
  { exists pg. eexists. exists text, v.
    split; [exact Hp|]. repeat split; assumption. }
  subst r. cbn [calendarIntentReason]. split; [discriminate|].
  destruct (field (js "calendarIntentReason") v); discriminate.
Qed.

Lemma returned_response_is_a_strict_decode_witness :
  exists r,
    fst (generateRoadmap sample_engine
           (scripted [Responds (Some sample_goal_text);
                      Responds (Some (js "{" ++ q "calendarIntentReason"
                                      ++ js ":null}"))])
           sample_buildRoadmapPrompt (js "Teach me TypeScript") [])
    = Returns r
    /\ calendarIntentReason r <> None
    /\ calendarIntentReason r <> Some JNull.
Proof.
  eexists. split; [reflexivity|].
  exact (proj2 (@returned_response_is_a_strict_decode sample_engine
                  (scripted [Responds (Some sample_goal_text);
                             Responds (Some (js "{" ++ q "calendarIntentReason"
                                             ++ js ":null}"))])
                  sample_buildRoadmapPrompt (js "Teach me TypeScript") [] _
                  eq_refl)).
Defined.

(** ** Responses that decode, but not to an object *)

(** X5. A goal response that decodes to null ends the run at the goal
    stage: reading [goal] of null throws inside the [try] block, the caller
    gets that TypeError wrapped as a preprocessing failure, and no roadmap
    request is sent. *)
Theorem null_goal_response_ends_the_run
    (E : engine) (gemini : trace -> GenerativeModel -> request -> reply)
    (buildRoadmapPrompt : jsval -> jsval -> jsval -> jsstring)
    (userMessage text : jsstring) (t : trace) :
  gemini t goalModel (goal_request userMessage) = Responds (Some text) ->
  JSON_parse text = Some JNull ->
  fst (generateRoadmap E gemini buildRoadmapPrompt userMessage t)
  = Throws (Error_ (js "Failed to preprocess goal with Gemini: "
                    ++ null_read_message E JNull (js "goal")))
  /\ requests (snd (generateRoadmap E gemini buildRoadmapPrompt userMessage t))
     = requests t ++ [(goalModel, goal_request userMessage)].
Proof.
  intros Hg Hp.
  pose proof (@preprocess_try_decoded E gemini _ _ _ _ Hg Hp) as H1.
  cbv iota in H1.
  rewrite (generateRoadmap_goal_failed _ _ buildRoadmapPrompt _ _
             (preprocess_throws _ _ _ _ H1)).
  split; [reflexivity|].
  simpl snd. rewrite !requests_app. simpl. now rewrite app_nil_r.
Qed.

Lemma null_goal_response_ends_the_run_witness :
  scripted [Responds (Some (js " null "))] [] goalModel
    (goal_request (js "Teach me TypeScript"))
  = Responds (Some (js " null "))
  /\ JSON_parse (js " null ") = Some JNull
  /\ fst (generateRoadmap sample_engine (scripted [Responds (Some (js " null "))])
            sample_buildRoadmapPrompt (js "Teach me TypeScript") [])
     = Throws (Error_ (js "Failed to preprocess goal with Gemini: Cannot read properties of null (reading 'goal')")).
Proof.
  split; [reflexivity|]. split; [reflexivity|].
  exact (proj1 (@null_goal_response_ends_the_run sample_engine
                  (scripted [Responds (Some (js " null "))])
                  sample_buildRoadmapPrompt (js "Teach me TypeScript")
                  (js " null ") [] eq_refl eq_refl)).
Defined.

(** X6. A roadmap response that decodes to null fails the run although the
    strict decode succeeded: reading [roadmap] of null throws inside the [try]
    block and the caller gets that TypeError wrapped as a generation
    failure. *)
Theorem null_roadmap_response_fails
    (E : engine) (gemini : trace -> GenerativeModel -> request -> reply)
    (buildRoadmapPrompt : jsval -> jsval -> jsval -> jsstring)
    (userMessage text : jsstring) (t t1 : trace) (pg : PreprocessedGoal) :
  preprocess E gemini userMessage t = (Returns pg, t1) ->
  gemini t1 chatModel
    (roadmap_request
       (fullPrompt userMessage
          (buildRoadmapPrompt (goal pg) (known pg) (experienceLevel pg))))
  = Responds (Some text) ->
  JSON_parse text = Some JNull ->
  fst (generateRoadmap E gemini buildRoadmapPrompt userMessage t)
  = Throws (Error_ (js "Failed to generate or parse roadmap: "
                    ++ null_read_message E JNull (js "roadmap"))).
Proof.
  intros H1 Hg Hp.
  pose proof (@roadmap_try_decoded E gemini _ _ _ _ Hg Hp) as H2.
  cbv iota in H2.
  now rewrite (generateRoadmap_throws _ _ buildRoadmapPrompt _ _ H1 H2).
Qed.

Lemma null_roadmap_response_fails_witness :
  exists pg t1,
    preprocess sample_engine
      (scripted [Responds (Some sample_goal_text); Responds (Some (js "null "))])
      (js "Teach me TypeScript") [] = (Returns pg, t1)
    /\ scripted [Responds (Some sample_goal_text); Responds (Some (js "null "))]
         t1 chatModel
         (roadmap_request
            (fullPrompt (js "Teach me TypeScript")
               (sample_buildRoadmapPrompt (goal pg) (known pg)
                  (experienceLevel pg))))
       = Responds (Some (js "null "))
    /\ JSON_parse (js "null ") = Some JNull
    /\ fst (generateRoadmap sample_engine
              (scripted [Responds (Some sample_goal_text);
                         Responds (Some (js "null "))])
              sample_buildRoadmapPrompt (js "Teach me TypeScript") [])
       = Throws (Error_ (js "Failed to generate or parse roadmap: Cannot read properties of null (reading 'roadmap')")).
Proof.
  do 2 eexists. split; [reflexivity|]. split; [reflexivity|].
  split; [reflexivity|].
  eapply null_roadmap_response_fails; reflexivity.
Defined.

Lemma field_of_non_object (k : jsstring) (v : jsval) :
  (forall ms, v <> JObj ms) -> field k v = JUndefined.
Proof. intros H. destruct v; try reflexivity. now destruct (H members). Qed.

(** X7. A roadmap response that decodes to anything but an object or null (a
    bare stage list, a string, a number, a boolean) is not an error: the run
    returns a response whose [roadmap], [shouldTriggerCalendar] and
    [calendarIntentReason] are all undefined. *)
Theorem non_object_roadmap_response_reads_as_undefined
    (E : engine) (gemini : trace -> GenerativeModel -> request -> reply)
    (buildRoadmapPrompt : jsval -> jsval -> jsval -> jsstring)
    (userMessage text : jsstring) (t t1 : trace) (pg : PreprocessedGoal)
    (v : jsval) :
  preprocess E gemini userMessage t = (Returns pg, t1) ->
  gemini t1 chatModel
    (roadmap_request
       (fullPrompt userMessage
          (buildRoadmapPrompt (goal pg) (known pg) (experienceLevel pg))))
  = Responds (Some text) ->
  JSON_parse text = Some v ->
  v <> JNull ->
  (forall ms, v <> JObj ms) ->
  fst (generateRoadmap E gemini buildRoadmapPrompt userMessage t)
  = Returns {| roadmap := JUndefined;
               shouldTriggerCalendar := JUndefined;
               calendarIntentReason := Some JUndefined |}.
Proof.
  intros H1 Hg Hp Hv Ho.
  pose proof (@roadmap_try_decoded E gemini _ _ _ _ Hg Hp) as H2.
  rewrite !(field_of_non_object _ Ho) in H2.
  assert (H3 : fst (roadmap_try E gemini
                      (fullPrompt userMessage
                         (buildRoadmapPrompt (goal pg) (known pg)
                            (experienceLevel pg))) t1)
               = Returns {| roadmap := JUndefined;
                            shouldTriggerCalendar := JUndefined;
                            calendarIntentReason := Some JUndefined |})
    by (rewrite H2; destruct v; try reflexivity; congruence).
  now rewrite (generateRoadmap_returns _ _ buildRoadmapPrompt _ _ H1 H3).
Qed.

Lemma non_object_roadmap_response_reads_as_undefined_witness :
  exists pg t1,
    preprocess sample_engine
      (scripted [Responds (Some sample_goal_text);
                 Responds (Some sample_stage_list)])
      (js "Teach me TypeScript") [] = (Returns pg, t1)
    /\ scripted [Responds (Some sample_goal_text);
                 Responds (Some sample_stage_list)] t1 chatModel
         (roadmap_request
            (fullPrompt (js "Teach me TypeScript")
               (sample_buildRoadmapPrompt (goal pg) (known pg)
                  (experienceLevel pg))))
       = Responds (Some sample_stage_list)
    /\ JSON_parse sample_stage_list = Some (JArr [JObj [(js "id", JStr (js "s1"))]])
    /\ fst (generateRoadmap sample_engine
              (scripted [Responds (Some sample_goal_text);
                         Responds (Some sample_stage_list)])
              sample_buildRoadmapPrompt (js "Teach me TypeScript") [])
       = Returns {| roadmap := JUndefined;
                    shouldTriggerCalendar := JUndefined;
                    calendarIntentReason := Some JUndefined |}.
Proof.
  do 2 eexists. split; [reflexivity|]. split; [reflexivity|].
  split; [reflexivity|].
  eapply non_object_roadmap_response_reads_as_undefined;
    [reflexivity|reflexivity|reflexivity|discriminate|discriminate].
Defined.

(** X8. A goal response that decodes to anything but an object or null is
    not an error either: [preprocess] returns a goal whose [goal] and optional
    fields are undefined and whose [known] is the empty array, and the run
    goes on to the roadmap stage with it. *)
Theorem non_object_goal_response_reads_as_empty
    (E : engine) (gemini : trace -> GenerativeModel -> request -> reply)
    (message text : jsstring) (t : trace) (v : jsval) :
  gemini t goalModel (goal_request message) = Responds (Some text) ->
  JSON_parse text = Some v ->
  v <> JNull ->
  (forall ms, v <> JObj ms) ->
  preprocess E gemini message t
  = (Returns {| goal := JUndefined;
                known := JArr [];
                experienceLevel := JUndefined;
                formatPreference := JUndefined;
                timeframe := JUndefined;
                specificFocus := JUndefined |},
     t ++ [Requested goalModel (goal_request message)]).
Proof.
  intros Hg Hp Hv Ho.
  pose proof (@preprocess_try_decoded E gemini _ _ _ _ Hg Hp) as H1.
  rewrite !(field_of_non_object _ Ho) in H1.
  apply preprocess_returns. rewrite H1.
  destruct v; try reflexivity; congruence.
Qed.

Lemma non_object_goal_response_reads_as_empty_witness :
  scripted [Responds (Some (js "[1, 2.5e3, true]"))] [] goalModel
    (goal_request (js "Teach me TypeScript"))
  = Responds (Some (js "[1, 2.5e3, true]"))
  /\ JSON_parse (js "[1, 2.5e3, true]")
     = Some (JArr [JNum (js "1"); JNum (js "2.5e3"); JBool true])
  /\ fst (preprocess sample_engine
            (scripted [Responds (Some (js "[1, 2.5e3, true]"))])
            (js "Teach me TypeScript") [])
     = Returns {| goal := JUndefined;
                  known := JArr [];
                  experienceLevel := JUndefined;
                  formatPreference := JUndefined;
                  timeframe := JUndefined;
                  specificFocus := JUndefined |}.
Proof.
  split; [reflexivity|]. split; [reflexivity|].
  eapply eq_trans;
    [apply (f_equal fst);
     eapply (@non_object_goal_response_reads_as_empty sample_engine
               (scripted [Responds (Some (js "[1, 2.5e3, true]"))])
               (js "Teach me TypeScript") (js "[1, 2.5e3, true]") []);
     [reflexivity|reflexivity|discriminate|discriminate]
    |reflexivity].
Defined.

(** ** Texts of white space *)

Lemma lex_blank (text : jsstring) (acc : list token) :
  blank text = true -> lex LIdle acc text = Some (rev acc).
Proof.
  unfold blank. induction text as [|c text IH]; intros H; [reflexivity|].
  simpl in H. apply andb_true_iff in H as [Hc Ht].
  simpl. unfold lex_idle. rewrite Hc. simpl. now apply IH.
Qed.

Lemma JSON_parse_blank (text : jsstring) : blank text = true -> JSON_parse text = None.
Proof. intros H. unfold JSON_parse. now rewrite (lex_blank _ [] H). Qed.

(** X9. A text of spaces, tabs and line breaks only is not taken for an
    empty response: it passes the emptiness test, fails to decode, and the
    run fails with the wrapped SyntaxError of the stage that received it, not
    with the empty-response error. *)
Theorem blank_text_is_a_decode_failure
    (E : engine) (gemini : trace -> GenerativeModel -> request -> reply)
    (buildRoadmapPrompt : jsval -> jsval -> jsval -> jsstring)
    (userMessage text : jsstring) (t : trace) :
  text <> [] ->
  blank text = true ->
  (gemini t goalModel (goal_request userMessage) = Responds (Some text) ->
   fst (generateRoadmap E gemini buildRoadmapPrompt userMessage t)
   = Throws (Error_ (js "Failed to preprocess goal with Gemini: "
                     ++ syntax_error_message E text)))
  /\ (forall pg t1,
        preprocess E gemini userMessage t = (Returns pg, t1) ->
        gemini t1 chatModel
          (roadmap_request
             (fullPrompt userMessage
                (buildRoadmapPrompt (goal pg) (known pg) (experienceLevel pg))))
        = Responds (Some text) ->
        fst (generateRoadmap E gemini buildRoadmapPrompt userMessage t)
        = Throws (Error_ (js "Failed to generate or parse roadmap: "
                          ++ syntax_error_message E text))).
Proof.
  intros Hne Hb.
  assert (Hf : stage_fails E (Responds (Some text)) (SyntaxError_ E text))
    by (constructor; [assumption|now apply JSON_parse_blank]).
  split.
  - intros Hg. rewrite <- Hg in Hf. apply preprocess_try_fails in Hf.
    now rewrite (generateRoadmap_goal_failed _ _ buildRoadmapPrompt _ _
                   (preprocess_throws _ _ _ _ Hf)).
  - intros pg t1 H1 Hg. rewrite <- Hg in Hf. apply roadmap_try_fails in Hf.
    now rewrite (generateRoadmap_throws _ _ buildRoadmapPrompt _ _ H1 Hf).
Qed.

Lemma blank_text_is_a_decode_failure_witness :
  [32; 10; 9] <> []
  /\ blank [32; 10; 9] = true
  /\ scripted [Responds (Some [32; 10; 9])] [] goalModel
       (goal_request (js "Teach me TypeScript"))
     = Responds (Some [32; 10; 9])
  /\ fst (generateRoadmap sample_engine (scripted [Responds (Some [32; 10; 9])])
            sample_buildRoadmapPrompt (js "Teach me TypeScript") [])
     = Throws (Error_ (js "Failed to preprocess goal with Gemini: Unexpected end of JSON input")).
Proof.
  split; [discriminate|]. split; [reflexivity|]. split; [reflexivity|].
  refine (proj1 (@blank_text_is_a_decode_failure sample_engine
                   (scripted [Responds (Some [32; 10; 9])])
                   sample_buildRoadmapPrompt (js "Teach me TypeScript")
                   [32; 10; 9] [] _ eq_refl) eq_refl).
  discriminate.
Defined.

(** ** The bracket pattern and the fallback block *)

Lemma upto_last_rbracket_none (s : jsstring) :
  upto_last_rbracket s = None <-> ~ In 93 s.
Proof.
  induction s as [|c s IH]; simpl; [split; [intros _ []|reflexivity]|].
  destruct (upto_last_rbracket s) as [p|].
  - split; [discriminate|]. intros H. exfalso. apply H. right.
    destruct (in_dec N.eq_dec 93 s) as [Hin|Hn]; [exact Hin|].
    apply IH in Hn. discriminate.
  - destruct (N.eqb_spec c 93) as [->|Hc].
    + split; [discriminate|]. intros H. exfalso. apply H. now left.
    + split; [|reflexivity]. intros _ [Heq|Hin]; [congruence|].
      now apply (proj1 IH).
Qed.

Lemma upto_last_rbracket_some (s p : jsstring) :
  upto_last_rbracket s = Some p
  <-> exists body post, s = body ++ 93 :: post /\ ~ In 93 post /\ p = body ++ [93].
Proof.
  split.
  - revert p. induction s as [|c s IH]; simpl; intros p H; [discriminate|].
    destruct (upto_last_rbracket s) as [p'|] eqn:Hs.
    + inversion H; subst.
      destruct (IH p' eq_refl) as (body & post & -> & Hn & ->).
      now exists (c :: body), post.
    + destruct (N.eqb_spec c 93) as [->|Hc]; [|discriminate].
      inversion H; subst. exists [], s.
      split; [reflexivity|]. split; [|reflexivity].
      now apply upto_last_rbracket_none.
  - intros (body & post & -> & Hn & ->).
    induction body as [|c body IH]; simpl.
    + now rewrite (proj2 (upto_last_rbracket_none post) Hn).
    + now rewrite IH.
Qed.

Lemma match_bracketed_starts (s m : jsstring) :
  match_bracketed s = Some m -> exists p, m = 91 :: p.
Proof.
  induction s as [|c s IH]; simpl; intros H; [discriminate|].
  destruct (N.eqb_spec c 91) as [->|Hc]; [|now apply IH].
  destruct (upto_last_rbracket s) as [p|]; [|discriminate].
  inversion H. now exists p.
Qed.

(** X10. The bracket pattern of the fallback matches exactly when the text
    has an opening bracket with a closing bracket somewhere after it, and what
    it matches runs from the first opening bracket of the text to its last
    closing bracket, everything between included. *)
Theorem bracket_pattern_spans_first_to_last (s m : jsstring) :
  match_bracketed s = Some m
  <-> exists pre body post,
        s = pre ++ 91 :: body ++ 93 :: post
        /\ ~ In 91 pre /\ ~ In 93 post
        /\ m = 91 :: body ++ [93].
Proof.
  split.
  - revert m. induction s as [|c s IH]; simpl; intros m H; [discriminate|].
    destruct (N.eqb_spec c 91) as [->|Hc].
    + destruct (upto_last_rbracket s) as [p|] eqn:Hs; [|discriminate].
      inversion H; subst.
      apply upto_last_rbracket_some in Hs as (body & post & -> & Hn & ->).
      exists [], body, post. simpl. auto.
    + destruct (IH m H) as (pre & body & post & -> & Hpre & Hpost & ->).
      exists (c :: pre), body, post. simpl. repeat split; auto.
      intros [Heq|Hin]; [congruence|auto].
  - intros (pre & body & post & -> & Hpre & Hpost & ->).
    induction pre as [|c pre IH]; simpl.
    + assert (Hs : upto_last_rbracket (body ++ 93 :: post) = Some (body ++ [93]))
        by (apply upto_last_rbracket_some; now exists body, post).
      now rewrite Hs.
    + destruct (N.eqb_spec c 91) as [->|Hc].
      * exfalso. apply Hpre. now left.
      * apply IH. intros Hin. apply Hpre. now right.
Qed.

Lemma bracket_pattern_spans_first_to_last_witness :
  match_bracketed (js "a] [b [c] d] e[") = Some (js "[b [c] d]").
Proof.
  apply (proj2 (bracket_pattern_spans_first_to_last
                  (js "a] [b [c] d] e[") (js "[b [c] d]"))).
  exists (js "a] "), (js "b [c] d"), (js " e[").
  split; [reflexivity|].
  split; [intros H; simpl in H; intuition discriminate|].
  split; [intros H; simpl in H; intuition discriminate|reflexivity].
Defined.

Lemma lex_extends_acc (s : jsstring) :
  forall st acc ts, lex st acc s = Some ts -> exists more, ts = rev acc ++ more.
Proof.
  induction s as [|c s IH]; intros st acc ts H; simpl in H.
  - destruct st; simpl in H; try discriminate.
    + inversion H. exists []. now rewrite app_nil_r.
    + destruct (word_token (rev rev_acc)) as [tk|]; [|discriminate].
      inversion H. now exists [tk].
  - destruct (lex_step st c) as [[ts0 st']|]; [|discriminate].
    destruct (IH _ _ _ H) as (more & ->).
    exists (ts0 ++ more).
    now rewrite rev_append_rev, rev_app_distr, rev_involutive, <- app_assoc.
Qed.

Lemma complete_in_outer_array (v : jsval) (stack : list frame) :
  bottom_is_array stack = true -> in_outer_array (complete v stack).
Proof.
  destruct stack as [|[items|members key] [|g stack]]; simpl; intros H;
    try discriminate; auto.
Qed.

Lemma complete_array_in_outer_array (items : list jsval) (stack : list frame) :
  stack = [] \/ bottom_is_array stack = true ->
  in_outer_array (complete (JArr items) stack).
Proof.
  intros [->|H]; [now exists items|now apply complete_in_outer_array].
Qed.

Lemma bottom_is_array_push_arr (items : list jsval) (stack : list frame) :
  stack = [] \/ bottom_is_array stack = true ->
  bottom_is_array (FArr items :: stack) = true.
Proof. intros [->|H]; [reflexivity|]. destruct stack; [discriminate|exact H]. Qed.

Lemma bottom_is_array_push_obj (members : list (jsstring * jsval))
    (key : jsstring) (stack : list frame) :
  bottom_is_array stack = true ->
  bottom_is_array (FObj members key :: stack) = true.
Proof. intros H. destruct stack; [discriminate|exact H]. Qed.

Lemma parse_value_in_outer_array (tk : token) (stack : list frame)
    (st' : parse_state) :
  bottom_is_array stack = true ->
  parse_value tk stack = Some st' -> in_outer_array st'.
Proof.
  intros Hb H. destruct tk; simpl in H; inversion H; subst;
    try (now apply complete_in_outer_array); simpl; auto.
Qed.

Lemma parse_step_in_outer_array (st st' : parse_state) (tk : token) :
  in_outer_array st -> parse_step st tk = Some st' -> in_outer_array st'.
Proof.
  intros Hst H.
  destruct st as [stack|stack|items stack|stack|members stack
                 |members key stack|members stack|w]; simpl in Hst, H.
  - now apply (@parse_value_in_outer_array tk stack).
  - destruct tk;
      try (apply (@parse_value_in_outer_array _ (FArr [] :: stack) _
                    (@bottom_is_array_push_arr [] stack Hst) H)).
    inversion H; subst. now apply complete_array_in_outer_array.
  - destruct tk; inversion H; subst.
    + now apply complete_array_in_outer_array.
    + exact (@bottom_is_array_push_arr items stack Hst).
  - destruct tk; inversion H; subst.
    + now apply complete_in_outer_array.
    + exact Hst.
  - destruct tk; inversion H; subst. exact Hst.
  - destruct tk; inversion H; subst.
    exact (@bottom_is_array_push_obj members key stack Hst).
  - destruct tk; inversion H; subst.
    + now apply complete_in_outer_array.
    + exact Hst.
  - discriminate.
Qed.

Lemma parse_tokens_in_outer_array (ts : list token) :
  forall st v,
    in_outer_array st -> parse_tokens st ts = Some v ->
    exists items, v = JArr items.
Proof.
  induction ts as [|tk ts IH]; intros st v Hst H; simpl in H.
  - destruct st; try discriminate. inversion H; subst. exact Hst.
  - destruct (parse_step st tk) as [st'|] eqn:Hs; [|discriminate].
    apply (IH st' v); [|exact H].
    now apply (@parse_step_in_outer_array st st' tk).
Qed.

(** A text that starts with an opening bracket decodes to an array or not at
    all. *)
Lemma JSON_parse_bracket (rest : jsstring) (v : jsval) :
  JSON_parse (91 :: rest) = Some v -> exists items, v = JArr items.
Proof.
  unfold JSON_parse. simpl lex.
  destruct (lex LIdle [TLBracket] rest) as [ts|] eqn:Hl; [|discriminate].
  destruct (lex_extends_acc _ _ _ Hl) as (more & ->). simpl.
  apply parse_tokens_in_outer_array. now left.
Qed.

(** X11. Wherever the fallback block returns, it returns an array: [text]
    was bound to a string, the bracket pattern matched in it, the match
    decoded to an array, and the response holds that array with
    [shouldTriggerCalendar] false and [calendarIntentReason] not set.  An
    object, a string or a number is never recovered. *)
Theorem fallback_recovers_arrays_only
    (E : engine) (sc : scope) (r : RoadmapResponse) :
  fallback E sc = Returns (Some r) ->
  exists text m items,
    resolve (js "text") sc = Some (BVal (JStr text))
    /\ match_bracketed text = Some m
    /\ JSON_parse m = Some (JArr items)
    /\ r = {| roadmap := JArr items;
              shouldTriggerCalendar := JBool false;
              calendarIntentReason := None |}.
Proof.
  unfold fallback. intros H.
  destruct (resolve (js "text") sc) as [[v|s|e]|]; try discriminate.
  destruct v as [| |b|l|text|vs|ms]; try discriminate.
  destruct (match_bracketed text) as [m|] eqn:Hm; [|discriminate].
  unfold JSON_parse_or_throw in H.
  destruct (JSON_parse m) as [v|] eqn:Hp; [|discriminate].
  inversion H; subst.
  destruct (match_bracketed_starts _ Hm) as (p & ->).
  destruct (JSON_parse_bracket _ Hp) as (items & ->).
  now exists text, (91 :: p), items.
Qed.

Lemma fallback_recovers_arrays_only_witness :
  exists r items,
    fallback sample_engine [(js "text", BVal (JStr sample_prose_wrapped))]
    = Returns (Some r)
    /\ roadmap r = JArr items.
Proof.
  eexists. eexists. split; [reflexivity|].
  destruct (@fallback_recovers_arrays_only sample_engine
              [(js "text", BVal (JStr sample_prose_wrapped))] _ eq_refl)
    as (text & m & items & _ & _ & Hp & Hr).
  inversion Hr. reflexivity.
Defined.

(** ** Responses that satisfy the response schema *)

Lemma conforms_string_inv (v : jsval) :
  conforms sch_string v = true -> exists s, v = JStr s.
Proof. destruct v; simpl; try discriminate. eauto. Qed.

Lemma conforms_boolean_inv (v : jsval) :
  conforms sch_boolean v = true -> exists b, v = JBool b.
Proof. destruct v; simpl; try discriminate. eauto. Qed.

Lemma forallb_conforms_strings (vs : list jsval) :
  forallb (conforms sch_string) vs = true -> exists l, vs = map JStr l.
Proof.
  induction vs as [|v vs IH]; intros H; [now exists []|].
  change (conforms sch_string v && forallb (conforms sch_string) vs = true) in H.
  apply andb_true_iff in H as [Hv Hvs].
  destruct (conforms_string_inv _ Hv) as (s & ->).
  destruct (IH Hvs) as (l & ->). now exists (s :: l).
Qed.

Lemma conforms_items (tys : list json_type) (si : schema) (vs : list jsval) :
  conforms (Schema tys [] [] (Some si) None) (JArr vs) = true ->
  forallb (conforms si) vs = true.
Proof.
  intros H.
  change (existsb (fun ty => has_type ty (JArr vs)) tys && true
          && forallb (conforms si) vs = true) in H.
  now apply andb_true_iff in H as [_ H].
Qed.

Lemma conforms_array_inv (si : schema) (v : jsval) :
  conforms (sch_array si) v = true ->
  exists vs, v = JArr vs /\ forallb (conforms si) vs = true.
Proof.
  intros H. destruct v; try (simpl in H; discriminate).
  exists items. split; [reflexivity|]. now apply (@conforms_items [TyArray]).
Qed.

(** An optional property that satisfies its schema reads, after the
    normalization, as a typed optional value. *)
Lemma optional_string_typed (o : option jsval) :
  match o with Some vk => conforms (nullable_string None) vk | None => true end
  = true ->
  exists os,
    nullish_coalesce (match o with Some x => x | None => JUndefined end) JUndefined
    = optional JStr os.
Proof.
  destruct o as [[| |b|l|s|vs|ms]|]; simpl; intros H; try discriminate.
  - now exists None.
  - now exists (Some s).
  - now exists None.
Qed.

Lemma optional_strings_typed (o : option jsval) :
  match o with
  | Some vk => conforms (Schema [TyArray; TyNull] [] [] (Some sch_string) None) vk
  | None => true
  end = true ->
  exists os,
    nullish_coalesce (match o with Some x => x | None => JUndefined end) JUndefined
    = optional strings os.
Proof.
  destruct o as [[| |b|l|s|vs|ms]|]; intros H;
    try (simpl in H; discriminate).
  - now exists None.
  - apply conforms_items, forallb_conforms_strings in H as (l & ->).
    now exists (Some l).
  - now exists None.
Qed.

Lemma optional_level_typed (o : option jsval) :
  match o with
  | Some vk =>
      conforms (nullable_string
                  (Some [JStr (js "beginner"); JStr (js "intermediate");
                         JStr (js "advanced"); JNull])) vk
  | None => true
  end = true ->
  exists ol,
    nullish_coalesce (match o with Some x => x | None => JUndefined end) JUndefined
    = optional (fun l => JStr (level_name l)) ol.
Proof.
  destruct o as [[| |b|l|s|vs|ms]|]; simpl; intros H; try discriminate.
  - now exists None.
  - rewrite ?andb_true_r, ?orb_false_r in H.
    repeat (apply orb_true_iff in H as [H|H]); try discriminate;
      apply jsstring_eqb_eq in H; subst s.
    + now exists (Some beginner).
    + now exists (Some intermediate).
    + now exists (Some advanced).
  - now exists None.
Qed.

Lemma optional_format_typed (o : option jsval) :
  match o with
  | Some vk =>
      conforms (nullable_string
                  (Some [JStr (js "video"); JStr (js "article");
                         JStr (js "project"); JStr (js "mixed"); JNull])) vk
  | None => true
  end = true ->
  exists opt,
    nullish_coalesce (match o with Some x => x | None => JUndefined end) JUndefined
    = optional (fun f => JStr (format_name f)) opt.
Proof.
  destruct o as [[| |b|l|s|vs|ms]|]; simpl; intros H; try discriminate.
  - now exists None.
  - rewrite ?andb_true_r, ?orb_false_r in H.
    repeat (apply orb_true_iff in H as [H|H]); try discriminate;
      apply jsstring_eqb_eq in H; subst s.
    + now exists (Some video).
    + now exists (Some article).
    + now exists (Some project).
    + now exists (Some mixed).
  - now exists None.
Qed.

(** X13. A goal response that satisfies the goal schema always yields a
    well-typed goal: [preprocess] returns, and what it returns is a goal
    descriptor as the interface types it (a string goal, a list of strings for
    known, one of the three levels or nothing, one of the four formats or
    nothing, a string or nothing, a list of strings or nothing). *)
Theorem conformant_goal_response_is_typed
    (E : engine) (gemini : trace -> GenerativeModel -> request -> reply)
    (message text : jsstring) (t : trace) (v : jsval) :
  gemini t goalModel (goal_request message) = Responds (Some text) ->
  JSON_parse text = Some v ->
  conforms goal_schema v = true ->
  exists d,
    preprocess E gemini message t
    = (Returns (descriptor_value d),
       t ++ [Requested goalModel (goal_request message)]).
Proof.
  intros Hg Hp Hc.
  destruct v as [| |b|l|s|vs|ms]; try (simpl in Hc; discriminate).
  unfold goal_schema in Hc. rewrite conforms_object in Hc.
  cbn [forallb fst snd] in Hc. unfold has_key in Hc.
  apply andb_true_iff in Hc as [Hreq Hc].
  apply andb_true_iff in Hreq as [Hkg Hreq].
  apply andb_true_iff in Hreq as [Hkk _].
  apply andb_true_iff in Hc as [Pgoal Hc].
  apply andb_true_iff in Hc as [Pknown Hc].
  apply andb_true_iff in Hc as [Plevel Hc].
  apply andb_true_iff in Hc as [Pformat Hc].
  apply andb_true_iff in Hc as [Ptime Hc].
  apply andb_true_iff in Hc as [Pfocus _].
  destruct (lookup_last (js "goal") ms) as [vg|] eqn:Lg; [|discriminate].
  destruct (lookup_last (js "known") ms) as [vk|] eqn:Lk; [|discriminate].
  apply conforms_string_inv in Pgoal as (g & ->).
  apply conforms_array_inv in Pknown as (ks & -> & Hks).
  apply forallb_conforms_strings in Hks as (known_list & ->).
  apply optional_level_typed in Plevel as (ol & Hl).
  apply optional_format_typed in Pformat as (opt & Hf).
  apply optional_string_typed in Ptime as (otime & Ht).
  apply optional_strings_typed in Pfocus as (ofocus & Hs).
  exists {| gd_goal := g; gd_known := known_list;
            gd_experienceLevel := ol; gd_formatPreference := opt;
            gd_timeframe := otime; gd_specificFocus := ofocus |}.
  apply preprocess_returns.
  rewrite (@preprocess_try_decoded E gemini _ _ _ _ Hg Hp). cbv iota.
  unfold field. rewrite Lg, Lk, Hl, Hf, Ht, Hs. reflexivity.
Qed.

Lemma conformant_goal_response_is_typed_witness :
  scripted [Responds (Some sample_goal_text)] [] goalModel
    (goal_request (js "Teach me TypeScript"))
  = Responds (Some sample_goal_text)
  /\ conforms goal_schema
       (JObj [(js "goal", JStr (js "Learn TypeScript"));
              (js "known", JArr [JStr (js "JavaScript")])]) = true
  /\ exists d,
       preprocess sample_engine (scripted [Responds (Some sample_goal_text)])
         (js "Teach me TypeScript") []
       = (Returns (descriptor_value d),
          [] ++ [Requested goalModel (goal_request (js "Teach me TypeScript"))]).
Proof.
  split; [reflexivity|]. split; [reflexivity|].
  apply (@conformant_goal_response_is_typed sample_engine
           (scripted [Responds (Some sample_goal_text)])
           (js "Teach me TypeScript") sample_goal_text []
           (JObj [(js "goal", JStr (js "Learn TypeScript"));
                  (js "known", JArr [JStr (js "JavaScript")])]));
    reflexivity.
Defined.

(** X14. A roadmap response that satisfies the response schema always
    yields a well-typed response: the run returns, [roadmap] is the list of
    stages as sent, each of the shape of a stage, [shouldTriggerCalendar] is a
    boolean, and [calendarIntentReason] is a string or undefined. *)
Theorem conformant_roadmap_response_is_typed
    (E : engine) (gemini : trace -> GenerativeModel -> request -> reply)
    (buildRoadmapPrompt : jsval -> jsval -> jsval -> jsstring)
    (userMessage text : jsstring) (t t1 : trace) (pg : PreprocessedGoal)
    (v : jsval) :
  preprocess E gemini userMessage t = (Returns pg, t1) ->
  gemini t1 chatModel
    (roadmap_request
       (fullPrompt userMessage
          (buildRoadmapPrompt (goal pg) (known pg) (experienceLevel pg))))
  = Responds (Some text) ->
  JSON_parse text = Some v ->
  conforms roadmap_schema v = true ->
  exists stages b reason,
    fst (generateRoadmap E gemini buildRoadmapPrompt userMessage t)
    = Returns {| roadmap := JArr stages;
                 shouldTriggerCalendar := JBool b;
                 calendarIntentReason := Some reason |}
    /\ field (js "roadmap") v = JArr stages
    /\ forallb (conforms stage_schema) stages = true
    /\ (reason = JUndefined \/ exists s, reason = JStr s).
Proof.
  intros H1 Hg Hp Hc.
  destruct v as [| |b|l|s|vs|ms]; try (simpl in Hc; discriminate).
  unfold roadmap_schema in Hc. rewrite conforms_object in Hc.
  cbn [forallb fst snd] in Hc. unfold has_key in Hc.
  apply andb_true_iff in Hc as [Hreq Hc].
  apply andb_true_iff in Hreq as [Hkr Hreq].
  apply andb_true_iff in Hreq as [Hkt _].
  apply andb_true_iff in Hc as [Proadmap Hc].
  apply andb_true_iff in Hc as [Ptrigger Hc].
  apply andb_true_iff in Hc as [Preason _].
  destruct (lookup_last (js "roadmap") ms) as [vr|] eqn:Lr; [|discriminate].
  destruct (lookup_last (js "triggerCalendar") ms) as [vt|] eqn:Lt;
    [|discriminate].
  apply conforms_array_inv in Proadmap as (stages & -> & Hstages).
  apply conforms_boolean_inv in Ptrigger as (b & ->).
  apply optional_string_typed in Preason as (oreason & Hr).
  exists stages, b, (optional JStr oreason).
  pose proof (@roadmap_try_decoded E gemini _ _ _ _ Hg Hp) as H2.
  cbv iota in H2. unfold field in H2. rewrite Lr, Lt, Hr in H2.
  rewrite (generateRoadmap_returns _ _ buildRoadmapPrompt _ _ H1 H2).
  split; [reflexivity|]. split; [unfold field; now rewrite Lr|].
  split; [exact Hstages|].
  destruct oreason as [s|]; [right; now exists s|now left].
Qed.

Lemma conformant_roadmap_response_is_typed_witness :
  exists pg t1,
    preprocess sample_engine
      (scripted [Responds (Some sample_goal_text);
                 Responds (Some (encode (roadmap_with_resources 1)))])
      (js "Teach me TypeScript") [] = (Returns pg, t1)
    /\ scripted [Responds (Some sample_goal_text);
                 Responds (Some (encode (roadmap_with_resources 1)))] t1
         chatModel
         (roadmap_request
            (fullPrompt (js "Teach me TypeScript")
               (sample_buildRoadmapPrompt (goal pg) (known pg)
                  (experienceLevel pg))))
       = Responds (Some (encode (roadmap_with_resources 1)))
    /\ JSON_parse (encode (roadmap_with_resources 1))
       = Some (roadmap_with_resources 1)
    /\ conforms roadmap_schema (roadmap_with_resources 1) = true
    /\ exists stages b reason,
         fst (generateRoadmap sample_engine
                (scripted [Responds (Some sample_goal_text);
                           Responds (Some (encode (roadmap_with_resources 1)))])
                sample_buildRoadmapPrompt (js "Teach me TypeScript") [])
         = Returns {| roadmap := JArr stages;
                      shouldTriggerCalendar := JBool b;
                      calendarIntentReason := Some reason |}.
Proof.
  do 2 eexists. split; [reflexivity|]. split; [reflexivity|].
  split; [reflexivity|]. split; [reflexivity|].
  destruct (@conformant_roadmap_response_is_typed sample_engine
              (scripted [Responds (Some sample_goal_text);
                         Responds (Some (encode (roadmap_with_resources 1)))])
              sample_buildRoadmapPrompt (js "Teach me TypeScript")
              (encode (roadmap_with_resources 1)) [] _ _
              (roadmap_with_resources 1) eq_refl eq_refl eq_refl eq_refl)
    as (stages & b & reason & Hrun & _).
  now exists stages, b, reason.
Defined.
